(** * thm-yearlyactivity: the input resolver and the series builders of app.py

    A shallow embedding of [parse_years], [resolve_username],
    [build_date_series] and [build_combined_series], with the pieces of the
    Python runtime they call ([str.strip], [str.split], [int], [datetime.date]),
    followed by the properties the specification states about them.  The
    fetchers and [main] are embedded as well, with further properties of the
    whole program. *)

From Stdlib Require Import ZArith String Ascii List Lia.
From stdpp Require Import gmap strings list sorting pretty.

Local Open Scope string_scope.
Local Open Scope Z_scope.
Local Open Scope list_scope.

(** ** Exceptions and outcomes *)

(** The [ValueError]s that can leave the modelled functions, by raise site. *)
Inductive value_error : Set :=
  | YearInFuture          (* app.py 128: "Year is in the future." *)
  | YearRangeInFuture     (* app.py 164: "Year range is in the future." *)
  | NoYears               (* app.py 156: "No years provided for combined series." *)
  | DateOutOfRange        (* dt.date(y, m, d) with a field out of range *)
  | InvalidIsoFormat      (* dt.date.fromisoformat on a malformed string *)
  | InvalidIntLiteral.    (* int(s) on a string that is not an integer literal *)

Inductive exn : Set :=
  | ValueError (why : value_error)
  | TypeError             (* int(x) on an object that is no number or string *)
  | OverflowError.        (* date + timedelta past dt.date.max *)

(** What a call does: it returns, it raises, or (for the model of a [while]
    loop only) the iteration budget given to it ran out. *)
Inductive outcome (A : Type) : Type :=
  | Returns (a : A)
  | Raises (e : exn)
  | OutOfFuel.

Arguments Returns {A} a.
Arguments Raises {A} e.
Arguments OutOfFuel {A}.

(** [outcome] is a monad; [x ← c; k] runs [k] on what [c] returns and passes
    an exception on. *)
#[global] Instance outcome_ret : MRet outcome := fun _ a => Returns a.

#[global] Instance outcome_bind : MBind outcome := fun _ _ k c =>
  match c with
  | Returns a => k a
  | Raises e => Raises e
  | OutOfFuel => OutOfFuel
  end.

(** ** Python strings

    A [str] is modelled by [string]; a character is its code point, so the
    model covers text in the range U+0000..U+00FF. *)
Module PyStr.

(** [str.isspace] on one character of that range. *)
Definition isspace (c : ascii) : bool :=
  let n := N_of_ascii c in
  ((9 <=? n) && (n <=? 13) || (28 <=? n) && (n <=? 32)
   || (n =? 133) || (n =? 160))%N.

Definition isdigit (c : ascii) : bool :=
  let n := N_of_ascii c in ((48 <=? n) && (n <=? 57))%N.

Definition digit_value (c : ascii) : Z := Z.of_N (N_of_ascii c) - 48.

Definition is_empty (s : string) : bool :=
  match s with EmptyString => true | String _ _ => false end.

(** [s.lstrip()] / [s.lstrip(chars)] with the stripped set as a predicate. *)
Fixpoint lstrip_by (p : ascii -> bool) (s : string) : string :=
  match s with
  | EmptyString => EmptyString
  | String c r => if p c then lstrip_by p r else s
  end.

(** [s.rstrip()] / [s.rstrip(chars)]. *)
Fixpoint rstrip_by (p : ascii -> bool) (s : string) : string :=
  match s with
  | EmptyString => EmptyString
  | String c r =>
      let r' := rstrip_by p r in
      if is_empty r' && p c then EmptyString else String c r'
  end.

(** [s.strip()] *)
Definition strip (s : string) : string := rstrip_by isspace (lstrip_by isspace s).

(** [s.rstrip("/")] *)
Definition rstrip_slash (s : string) : string :=
  rstrip_by (fun c => Ascii.eqb c "/"%char) s.

(** [s.startswith(p)] *)
Fixpoint startswith (s p : string) : bool :=
  match p, s with
  | EmptyString, _ => true
  | String a p', String b s' => Ascii.eqb a b && startswith s' p'
  | String _ _, EmptyString => false
  end.

(** [s.split(sep)] for a one-character separator: never the empty list. *)
Fixpoint split (sep : ascii) (s : string) : list string :=
  match s with
  | EmptyString => [EmptyString]
  | String c r =>
      if Ascii.eqb c sep then EmptyString :: split sep r
      else match split sep r with
           | h :: t => String c h :: t
           | [] => [String c EmptyString]
           end
  end.

(** The digits of an integer literal after the sign: decimal digits, where a
    single underscore may stand between two digits.  [acc] is the value read
    so far, [prev] tells whether the previous character was a digit. *)
Fixpoint int_digits (acc : Z) (prev : bool) (s : string) : option Z :=
  match s with
  | EmptyString => if prev then Some acc else None
  | String c r =>
      if isdigit c then int_digits (10 * acc + digit_value c) true r
      else if Ascii.eqb c "_"%char && prev then
        match r with
        | String d _ => if isdigit d then int_digits acc false r else None
        | EmptyString => None
        end
      else None
  end.

(** [int(s)] for a [str] argument, base 10: surrounding whitespace is
    ignored, one sign is allowed, and anything else raises [ValueError]. *)
Definition int (s : string) : outcome Z :=
  let parsed :=
    match strip s with
    | String "+" r => int_digits 0 false r
    | String "-" r => Z.opp <$> int_digits 0 false r
    | t => int_digits 0 false t
    end in
  match parsed with
  | Some n => Returns n
  | None => Raises (ValueError InvalidIntLiteral)
  end.

End PyStr.

(** ** Python objects

    The values a decoded JSON field or a command-line attribute can hold, as
    far as the modelled functions look at them: [None], booleans, integers and
    strings. *)
Inductive pyobj : Type :=
  | PyNone
  | PyBool (b : bool)
  | PyInt (n : Z)
  | PyStr (s : string).

Module PyObj.

(** Truth value of an object ([bool(x)]). *)
Definition truthy (x : pyobj) : bool :=
  match x with
  | PyNone => false
  | PyBool b => b
  | PyInt n => negb (n =? 0)
  | PyStr s => negb (PyStr.is_empty s)
  end.

(** [x or y] *)
Definition or (x y : pyobj) : pyobj := if truthy x then x else y.

(** [str(x)] *)
Definition str (x : pyobj) : string :=
  match x with
  | PyNone => "None"
  | PyBool true => "True"
  | PyBool false => "False"
  | PyInt n => pretty n
  | PyStr s => s
  end.

(** [int(x)]; [int(None)] is a [TypeError]. *)
Definition int (x : pyobj) : outcome Z :=
  match x with
  | PyNone => Raises TypeError
  | PyBool b => Returns (if b then 1 else 0)
  | PyInt n => Returns n
  | PyStr s => PyStr.int s
  end.

End PyObj.

(** ** Calendar dates ([datetime.date]) *)

Record date : Set := Date { year : Z; month : Z; day : Z }.

#[global] Instance date_eq_dec : EqDecision date.
Proof. solve_decision. Defined.

Definition date_fields (d : date) : Z * Z * Z := (year d, month d, day d).
Definition date_of_fields (t : Z * Z * Z) : date := Date t.1.1 t.1.2 t.2.

(** Dates are dictionary keys. *)
#[global] Instance date_countable : Countable date :=
  inj_countable' date_fields date_of_fields
    (fun d => match d with Date _ _ _ => eq_refl end).

Module Calendar.

Definition MINYEAR : Z := 1.
Definition MAXYEAR : Z := 9999.

(** year -> true if leap year, else false *)
Definition is_leap (y : Z) : bool :=
  (y mod 4 =? 0) && (negb (y mod 100 =? 0) || (y mod 400 =? 0)).

(** year -> number of days before January 1st of year *)
Definition days_before_year (y : Z) : Z :=
  let p := y - 1 in p * 365 + p / 4 - p / 100 + p / 400.

Definition days_in_year (y : Z) : Z := if is_leap y then 366 else 365.

(** year, month -> number of days in that month in that year *)
Definition days_in_month (y m : Z) : Z :=
  if (m =? 2) && is_leap y then 29
  else match m with
       | 1 | 3 | 5 | 7 | 8 | 10 | 12 => 31
       | 4 | 6 | 9 | 11 => 30
       | 2 => 28
       | _ => -1
       end.

(** year, month -> number of days in year preceding first day of month *)
Definition days_before_month (y m : Z) : Z :=
  match m with
  | 1 => 0 | 2 => 31 | 3 => 59 | 4 => 90 | 5 => 120 | 6 => 151
  | 7 => 181 | 8 => 212 | 9 => 243 | 10 => 273 | 11 => 304 | 12 => 334
  | _ => -1
  end + (if (2 <? m) && is_leap y then 1 else 0).

(** year, month, day -> ordinal, considering 01-Jan-0001 as day 1 *)
Definition ymd2ord (y m d : Z) : Z :=
  days_before_year y + days_before_month y m + d.

Definition toordinal (d : date) : Z := ymd2ord (year d) (month d) (day d).

(** The field check of the [date] constructor. *)
Definition check_date_fields (y m d : Z) : bool :=
  (MINYEAR <=? y) && (y <=? MAXYEAR) && (1 <=? m) && (m <=? 12)
  && (1 <=? d) && (d <=? days_in_month y m).

(** [dt.date(y, m, d)] *)
Definition new (y m d : Z) : outcome date :=
  if check_date_fields y m d then Returns (Date y m d)
  else Raises (ValueError DateOutOfRange).

(** The values of type [dt.date]. *)
Definition valid (d : date) : Prop :=
  check_date_fields (year d) (month d) (day d) = true.

(** [dt.date.max] and its ordinal *)
Definition max : date := Date MAXYEAR 12 31.
Definition MAXORDINAL : Z := 3652059.

(** [a <= b], [a < b], [a > b]: dates compare as (year, month, day). *)
Definition leb (a b : date) : bool :=
  (year a <? year b)
  || (year a =? year b)
     && ((month a <? month b)
         || (month a =? month b) && (day a <=? day b)).

Definition ltb (a b : date) : bool := negb (leb b a).
Definition gtb (a b : date) : bool := ltb b a.

(** [min(a, b)]: the first argument unless the second is smaller. *)
Definition min (a b : date) : date := if ltb b a then b else a.

(** [d + dt.timedelta(days=1)]: the next calendar day; past [dt.date.max]
    the addition raises [OverflowError]. *)
Definition add_day (d : date) : outcome date :=
  if day d <? days_in_month (year d) (month d) then
    Returns (Date (year d) (month d) (day d + 1))
  else if month d <? 12 then Returns (Date (year d) (month d + 1) 1)
  else if year d <? MAXYEAR then Returns (Date (year d + 1) 1 1)
  else Raises OverflowError.

(** Reading [n] decimal digits. *)
Fixpoint parse_digits (n : nat) (acc : Z) (s : string) : option (Z * string) :=
  match n with
  | O => Some (acc, s)
  | S n' =>
      match s with
      | String c r =>
          if PyStr.isdigit c
          then parse_digits n' (10 * acc + PyStr.digit_value c) r
          else None
      | EmptyString => None
      end
  end.

Definition expect (c : ascii) (s : string) : option string :=
  match s with
  | String a r => if Ascii.eqb a c then Some r else None
  | EmptyString => None
  end.

(** [dt.date.fromisoformat(s)]: exactly [YYYY-MM-DD] naming a date that
    exists; every other string raises [ValueError].  (This is the format
    every Python 3 accepts; from 3.11 on the basic and week-date spellings of
    ISO 8601 are accepted too.  The properties below speak of the strings
    that are rejected and of those that give a date, whichever they are.) *)
Definition fromisoformat (s : string) : outcome date :=
  let parsed :=
    '(y, s1) ← parse_digits 4 0 s;
    s2 ← expect "-" s1;
    '(m, s3) ← parse_digits 2 0 s2;
    s4 ← expect "-" s3;
    '(d, s5) ← parse_digits 2 0 s4;
    if PyStr.is_empty s5 && check_date_fields y m d
    then Some (Date y m d) else None in
  match parsed with
  | Some d => Returns d
  | None => Raises (ValueError InvalidIsoFormat)
  end.

End Calendar.

(** ** The input resolver *)

(** The attributes of the [argparse.Namespace] that [parse_args] returns.
    [--year], [--year-start] and [--year-end] are declared with [type=int]. *)
Module Args.
Record Namespace : Type := {
  input : option string;
  username : option string;
  year : option Z;
  years : option string;
  year_start : option Z;
  year_end : option Z
}.
End Args.

(** An optional attribute as the object the code sees. *)
Definition opt_str (o : option string) : pyobj :=
  match o with Some s => PyStr s | None => PyNone end.

Definition opt_int (o : option Z) : pyobj :=
  match o with Some n => PyInt n | None => PyNone end.

(** [resolve_year(value)], with [dt.date.today()] passed as [today]. *)
Definition resolve_year (today : date) (value : pyobj) : outcome Z :=
  match value with
  | PyNone => Returns (year today)
  | PyStr s =>
      if PyStr.is_empty (PyStr.strip s) then Returns (year today)
      else PyObj.int value
  | _ => PyObj.int value
  end.

(** The loop of [parse_years] over [str(args.years).split(",")]: the integers
    appended to [years], blank items skipped. *)
Fixpoint parse_items (items : list string) : outcome (list Z) :=
  match items with
  | [] => mret []
  | item :: rest =>
      let item := PyStr.strip item in
      if PyStr.is_empty item then parse_items rest
      else n ← PyStr.int item; ns ← parse_items rest; mret (n :: ns)
  end.

(** [list(range(start, stop))] *)
Definition range (start stop : Z) : list Z := seqZ start (stop - start).

(** [sorted(set(years))] *)
Definition sorted_set (years : list Z) : list Z :=
  merge_sort Z.le (elements (list_to_set years : gset Z)).

(** [parse_years(args)] *)
Definition parse_years (today : date) (args : Args.Namespace) : outcome (list Z) :=
  years ← (if PyObj.truthy (opt_str (Args.years args))
           then parse_items (PyStr.split "," (PyObj.str (opt_str (Args.years args))))
           else mret []);
  years ← (match Args.year_start args, Args.year_end args with
           | None, None => mret years
           | ys, ye =>
               start ← (match ys with
                        | Some s => mret s
                        | None => resolve_year today PyNone
                        end);
               end_ ← (match ye with
                       | Some e => mret e
                       | None => resolve_year today PyNone
                       end);
               let '(start, end_) :=
                 if end_ <? start then (end_, start) else (start, end_) in
               mret (years ++ range start (end_ + 1))%list
           end);
  years ← (match years with
           | [] => y ← resolve_year today (opt_int (Args.year args)); mret [y]
           | _ => mret years
           end);
  mret (sorted_set years).

(** [parts.index(x)] when [x in parts]. *)
Definition index (x : string) (parts : list string) : option nat :=
  fst <$> list_find (fun s => s = x) parts.

(** Lines 69-71 of [resolve_username]: the candidate string.  [typed] is the
    line that [input(...)] reads when the prompt is shown. *)
Definition resolve_candidate (typed : string)
    (username raw_input : option string) : string :=
  let candidate :=
    if PyObj.truthy (opt_str username) then username else raw_input in
  match candidate with
  | None => PyStr.strip typed
  | Some c => if PyStr.is_empty (PyStr.strip c) then PyStr.strip typed else c
  end.

(** [text.startswith("http://") or text.startswith("https://")] *)
Definition is_url (text : string) : bool :=
  PyStr.startswith text "http://" || PyStr.startswith text "https://".

(** [text.rstrip("/").split("/")] *)
Definition url_parts (text : string) : list string :=
  PyStr.split "/" (PyStr.rstrip_slash text).

(** [resolve_username(username, raw_input)] *)
Definition resolve_username (typed : string)
    (username raw_input : option string) : string :=
  let text := PyStr.strip (resolve_candidate typed username raw_input) in
  if is_url text then
    let parts := url_parts text in
    match (if bool_decide ("p" ∈ parts) then index "p" parts else None) with
    | Some i =>
        if (i + 1 <? length parts)%nat then default "" (parts !! (i + 1)%nat)
        else default "" (last parts)
    | None => default "" (last parts)
    end
  else text.

(** ** The series builder *)

(** One decoded activity record: a [Dict[str, object]]. *)
Abbreviation entry := (gmap string pyobj).

(** [str(entry.get("date", ""))] *)
Definition entry_date_str (e : entry) : string :=
  PyObj.str (default (PyStr "") (e !! "date")).

(** [int(entry.get("count", 0) or 0)] *)
Definition entry_count (e : entry) : outcome Z :=
  PyObj.int (PyObj.or (default (PyInt 0) (e !! "count")) (PyInt 0)).

(** The first loop of [build_date_series]: [activity_map[date_value] = count]
    for every entry whose date parses. *)
Fixpoint fill_map (activity : list entry) (activity_map : gmap date Z)
    : outcome (gmap date Z) :=
  match activity with
  | [] => mret activity_map
  | e :: rest =>
      let date_str := entry_date_str e in
      count ← entry_count e;
      match Calendar.fromisoformat date_str with
      | Returns date_value => fill_map rest (<[date_value := count]> activity_map)
      | Raises (ValueError _) => fill_map rest activity_map
      | Raises x => Raises x
      | OutOfFuel => OutOfFuel
      end
  end.

(** The inner loop of [build_combined_series]:
    [activity_map[date_value] = activity_map.get(date_value, 0) + count]. *)
Fixpoint add_to_map (activity : list entry) (activity_map : gmap date Z)
    : outcome (gmap date Z) :=
  match activity with
  | [] => mret activity_map
  | e :: rest =>
      let date_str := entry_date_str e in
      count ← entry_count e;
      match Calendar.fromisoformat date_str with
      | Returns date_value =>
          add_to_map rest
            (<[date_value := default 0 (activity_map !! date_value) + count]>
               activity_map)
      | Raises (ValueError _) => add_to_map rest activity_map
      | Raises x => Raises x
      | OutOfFuel => OutOfFuel
      end
  end.

(** The outer loop of [build_combined_series] over [years], reading
    [activities_by_year.get(year, [])]. *)
Fixpoint add_years (years : list Z) (activities_by_year : gmap Z (list entry))
    (activity_map : gmap date Z) : outcome (gmap date Z) :=
  match years with
  | [] => mret activity_map
  | y :: rest =>
      m ← add_to_map (default [] (activities_by_year !! y)) activity_map;
      add_years rest activities_by_year m
  end.

(** The [while cursor <= end_date] loop shared by both builders; one unit of
    [fuel] per iteration. *)
Fixpoint walk (fuel : nat) (activity_map : gmap date Z) (cursor end_date : date)
    : outcome (list date * list Z) :=
  if Calendar.leb cursor end_date then
    match fuel with
    | O => OutOfFuel
    | S fuel' =>
        next ← Calendar.add_day cursor;
        '(dates, counts) ← walk fuel' activity_map next end_date;
        mret (cursor :: dates, default 0 (activity_map !! cursor) :: counts)
    end
  else mret ([], []).

(** The number of days of [start_date .. end_date], which is the number of
    iterations the loop needs. *)
Definition span (start_date end_date : date) : nat :=
  Z.to_nat (Calendar.toordinal end_date - Calendar.toordinal start_date + 1).

(** [min(years)] and [max(years)] of a non-empty list ([ValueError] otherwise;
    the builder tests [not years] before it calls them). *)
Definition list_min (l : list Z) : Z :=
  match l with [] => 0 | x :: r => foldl Z.min x r end.

Definition list_max (l : list Z) : Z :=
  match l with [] => 0 | x :: r => foldl Z.max x r end.

(** [build_date_series(year, activity)], with [dt.date.today()] passed as
    [today]. *)
Definition build_date_series (today : date) (year : Z) (activity : list entry)
    : outcome (list date * list Z) :=
  activity_map ← fill_map activity ∅;
  start_date ← Calendar.new year 1 1;
  end_of_year ← Calendar.new year 12 31;
  let end_date := Calendar.min today end_of_year in
  if Calendar.gtb start_date end_date then Raises (ValueError YearInFuture)
  else walk (span start_date end_date) activity_map start_date end_date.

(** [build_combined_series(years, activities_by_year)], with
    [dt.date.today()] passed as [today]. *)
Definition build_combined_series (today : date) (years : list Z)
    (activities_by_year : gmap Z (list entry)) : outcome (list date * list Z) :=
  activity_map ← add_years years activities_by_year ∅;
  match years with
  | [] => Raises (ValueError NoYears)
  | _ =>
      start_date ← Calendar.new (list_min years) 1 1;
      end_of_last_year ← Calendar.new (list_max years) 12 31;
      let end_date := Calendar.min today end_of_last_year in
      if Calendar.gtb start_date end_date
      then Raises (ValueError YearRangeInFuture)
      else walk (span start_date end_date) activity_map start_date end_date
  end.


(** ** Vocabulary of the specification *)

(** A record is convertible when its count field can be turned into an
    integer: it is absent, [null], a number, or a string holding a number. *)
Definition convertible (e : entry) : Prop := exists c, entry_count e = Returns c.

(** The records of the specification's data model: the count is absent, [null]
    or a non-negative integer. *)
Definition nonneg_count (e : entry) : Prop :=
  exists c, entry_count e = Returns c /\ 0 <= c.

(** The record carries the well-formed date [d]. *)
Definition dated (d : date) (e : entry) : Prop :=
  Calendar.fromisoformat (entry_date_str e) = Returns d.

(** The record's date string is not a well-formed calendar date. *)
Definition malformed_date (e : entry) : Prop :=
  exists why, Calendar.fromisoformat (entry_date_str e) = Raises (ValueError why).



(** The records of the requested years, in the order the builder reads them. *)
Definition all_records (years : list Z) (activities_by_year : gmap Z (list entry))
    : list entry :=
  concat ((fun y => default [] (activities_by_year !! y)) <$> years).

(** The counts a map assigns to a list of days, absent days counting 0. *)
Definition counts_of (activity_map : gmap date Z) (dates : list date) : list Z :=
  (fun d => default 0 (activity_map !! d)) <$> dates.

(** [dates] holds one date per calendar day from [start] on: entry [i] is the
    day [i] days after [start]. *)
Definition daily_from (start : date) (dates : list date) : Prop :=
  forall (i : nat) (d : date),
    dates !! i = Some d ->
    Calendar.valid d /\ Calendar.toordinal d = Calendar.toordinal start + Z.of_nat i.





(** The years the comma-separated list contributes. *)
Definition listed_years (args : Args.Namespace) : outcome (list Z) :=
  match Args.years args with
  | Some s => if PyStr.is_empty s then mret [] else parse_items (PyStr.split "," s)
  | None => mret []
  end.

(** The years the start/end range contributes: nothing when neither endpoint
    is given; otherwise a missing endpoint is the current year and the range
    runs from the smaller endpoint to the larger one, both included. *)
Definition range_years (today : date) (args : Args.Namespace) : list Z :=
  match Args.year_start args, Args.year_end args with
  | None, None => []
  | s, e =>
      let a := default (year today) s in
      let b := default (year today) e in
      seqZ (Z.min a b) (Z.max a b - Z.min a b + 1)
  end.

(** The single year value, the current year when it is not given. *)
Definition single_year (today : date) (args : Args.Namespace) : Z :=
  default (year today) (Args.year args).

(** The parsed command line with the attributes [parse_years] reads. *)
Definition args_of (year : option Z) (years : option string)
    (year_start year_end : option Z) : Args.Namespace :=
  {| Args.input := None; Args.username := None; Args.year := year;
     Args.years := years; Args.year_start := year_start;
     Args.year_end := year_end |}.

(** The activity record [{"date": d, "count": c}]. *)
Definition record (d : string) (c : Z) : entry :=
  <["date" := PyStr d]> (<["count" := PyInt c]> ∅).

(** ** The prompt *)

(** [prompt_if_missing(value, label)]; [typed] is the line that [input(...)]
    reads.  The label only words the prompt. *)
Definition prompt_if_missing (typed : string) (value : pyobj) : string :=
  match value with
  | PyNone => PyStr.strip typed
  | PyStr s =>
      if PyStr.is_empty (PyStr.strip s) then PyStr.strip typed
      else PyStr.strip (PyObj.str value)
  | _ => PyStr.strip (PyObj.str value)
  end.

(** Whether [resolve_username] shows the prompt (line 70). *)
Definition prompts (username raw_input : option string) : bool :=
  match (if PyObj.truthy (opt_str username) then username else raw_input) with
  | None => true
  | Some c => PyStr.is_empty (PyStr.strip c)
  end.

(** ** The activity fetcher

    [requests.get] is a question to the remote service; the service is a
    function from the question to what comes back.  A decoded payload is a
    scalar, an array of activity records or an object, which covers what the
    two fetchers look at; [.get] on anything but an object is an
    [AttributeError].  [response.json()] on a body that is not JSON raises the
    [JSONDecodeError] of requests, a [RequestException]. *)

(** A decoded JSON payload: a scalar, an array of activity records, or an
    object.  The fields of an object are kept in document order. *)
#[warnings="-register-all"]
Inductive jvalue : Type :=
  | JScalar (v : pyobj)
  | JRecords (l : list entry)
  | JObject (fields : list (string * jvalue)).

(** The value of a key in a decoded object; a repeated key has its last
    value, as in [json] decoding. *)
Fixpoint field (key : string) (fields : list (string * jvalue)) : option jvalue :=
  match fields with
  | [] => None
  | (k, v) :: rest =>
      match field key rest with
      | Some w => Some w
      | None => if decide (k = key) then Some v else None
      end
  end.

(** Truth value of a decoded payload. *)
Definition jtruthy (v : jvalue) : bool :=
  match v with
  | JScalar x => PyObj.truthy x
  | JRecords l => match l with [] => false | _ => true end
  | JObject fields => match fields with [] => false | _ => true end
  end.

(** What [requests.get] hands back: a response with its status code and its
    body, decoded when it is JSON. *)
Record response : Type := { status_code : Z; body : option jvalue }.

(** A call of [requests.get]: it raises a [RequestException] (no connection,
    timeout) or it returns a response. *)
Inductive sent : Type :=
  | Unreachable
  | Response (r : response).

(** The remote service: the answer to the profile lookup of a username, and to
    the yearly-activity lookup of a user id and a year. *)
Record network : Type := {
  get_profile : string -> sent;
  get_yearly : jvalue -> Z -> sent
}.

Inductive request_error : Set :=
  | ConnectionFailed      (* raised by requests.get *)
  | HTTPError (status : Z) (* raised by response.raise_for_status() *)
  | JSONDecodeError.      (* raised by response.json() *)

Inductive fetch_value_error : Set :=
  | UserIdNotFound        (* app.py 91 *)
  | ActivityNotAList.     (* app.py 105 *)

(** The exceptions of the fetchers, by class. *)
Inductive fetch_exn : Set :=
  | RequestException (why : request_error)
  | FetchValueError (why : fetch_value_error)
  | AttributeError.       (* [.get] on a payload that is no object *)

Inductive fetched (A : Type) : Type :=
  | Fetched (a : A)
  | Failed (e : fetch_exn).

Arguments Fetched {A} a.
Arguments Failed {A} e.

#[global] Instance fetched_ret : MRet fetched := fun _ a => Fetched a.

#[global] Instance fetched_bind : MBind fetched := fun _ _ k c =>
  match c with
  | Fetched a => k a
  | Failed e => Failed e
  end.

(** [response.raise_for_status()] *)
Definition raise_for_status (r : response) : fetched unit :=
  if (400 <=? status_code r) && (status_code r <? 600)
  then Failed (RequestException (HTTPError (status_code r)))
  else Fetched tt.

(** [response.json()] *)
Definition json (r : response) : fetched jvalue :=
  match body r with
  | Some payload => Fetched payload
  | None => Failed (RequestException JSONDecodeError)
  end.

(** [obj.get(key, default)] *)
Definition jget (obj : jvalue) (key : string) (default : jvalue) : fetched jvalue :=
  match obj with
  | JObject fields =>
      Fetched (match field key fields with Some v => v | None => default end)
  | _ => Failed AttributeError
  end.

(** [fetch_user_id(username)] *)
Definition fetch_user_id (net : network) (username : string) : fetched jvalue :=
  match get_profile net username with
  | Unreachable => Failed (RequestException ConnectionFailed)
  | Response r =>
      _ ← raise_for_status r;
      payload ← json r;
      data ← jget payload "data" (JObject []);
      user_id ← jget data "_id" (JScalar PyNone);
      if jtruthy user_id then Fetched user_id
      else Failed (FetchValueError UserIdNotFound)
  end.

(** [fetch_yearly_activity(user_id, year)]; [None] is the answer to a 404. *)
Definition fetch_yearly_activity (net : network) (user_id : jvalue) (y : Z)
    : fetched (option (list entry)) :=
  match get_yearly net user_id y with
  | Unreachable => Failed (RequestException ConnectionFailed)
  | Response r =>
      if status_code r =? 404 then Fetched None
      else
        _ ← raise_for_status r;
        payload ← json r;
        data ← jget payload "data" (JObject []);
        activity ← jget data "yearlyActivity" (JRecords []);
        match activity with
        | JRecords l => Fetched (Some l)
        | _ => Failed (FetchValueError ActivityNotAList)
        end
  end.

(** ** The program

    A run of [main] is the list of what it does, in order (the prompt, the
    printed lines, the requests, the chart), and how it ends.  [plot_activity]
    is the event [Plot] with its four arguments. *)

(** The lines [main] prints, by [print] statement, with the values they
    show. *)
Inductive message : Type :=
  | YearValuesMustBeNumbers
  | FetchingUserId (username : string)
  | UserIdFound (user_id : jvalue)
  | FetchingYear (y : Z)
  | NoDataForYear (y : Z)
  | FetchedRecords (n : nat)
  | NoDataForAnyYear
  | RequestFailed (e : request_error)
  | ErrorFromFetch (e : fetch_value_error)
  | ErrorFromSeries (e : value_error).

(** What a run does, in order. *)
Inductive event : Type :=
  | Prompt
  | Print (m : message)
  | ProfileRequest (username : string)
  | YearlyRequest (user_id : jvalue) (y : Z)
  | Plot (username label : string) (dates : list date) (counts : list Z).

(** How a run ends: [main] returns an exit code, an exception that no
    handler catches leaves it, or the iteration budget of the model ran
    out. *)
Inductive ending : Type :=
  | Exit (code : Z)
  | Uncaught
  | Unfinished.

(** The [for year in years] loop of [main]: the events, and the dictionary
    [activities_by_year] or the exception that ended the loop. *)
Fixpoint fetch_years (net : network) (user_id : jvalue) (years : list Z)
    (activities_by_year : gmap Z (list entry))
    : list event * fetched (gmap Z (list entry)) :=
  match years with
  | [] => ([], Fetched activities_by_year)
  | y :: rest =>
      let asked := [Print (FetchingYear y); YearlyRequest user_id y] in
      match fetch_yearly_activity net user_id y with
      | Failed e => (asked, Failed e)
      | Fetched None =>
          let '(events, result) := fetch_years net user_id rest activities_by_year in
          (asked ++ Print (NoDataForYear y) :: events, result)
      | Fetched (Some activity) =>
          let '(events, result) :=
            fetch_years net user_id rest (<[y := activity]> activities_by_year) in
          (asked ++ Print (FetchedRecords (length activity)) :: events, result)
      end
  end.

(** [sorted(activities_by_year.keys())] *)
Definition sorted_keys (activities_by_year : gmap Z (list entry)) : list Z :=
  merge_sort Z.le (elements (dom activities_by_year)).

(** The label of the chart (lines 227-231). *)
Definition label_of (combined_years : list Z) : string :=
  match combined_years with
  | [y] => pretty y
  | _ => pretty (default 0 (head combined_years)) +:+ "-"
         +:+ pretty (default 0 (last combined_years))
  end.

(** The two [except] clauses of [main]. *)
Definition handle (e : fetch_exn) : list event * ending :=
  match e with
  | RequestException why => ([Print (RequestFailed why)], Exit 1)
  | FetchValueError why => ([Print (ErrorFromFetch why)], Exit 1)
  | AttributeError => ([], Uncaught)
  end.

(** [main()], for parsed arguments [args]; [typed] is the line the prompt
    reads, [today] is [dt.date.today()], [net] the remote service. *)
Definition main (typed : string) (today : date) (net : network)
    (args : Args.Namespace) : list event * ending :=
  let asked := if prompts (Args.username args) (Args.input args) then [Prompt] else [] in
  let username := resolve_username typed (Args.username args) (Args.input args) in
  match parse_years today args with
  | Raises (ValueError _) => (asked ++ [Print YearValuesMustBeNumbers], Exit 1)
  | Raises _ => (asked, Uncaught)
  | OutOfFuel => (asked, Unfinished)
  | Returns years =>
      let lookup := [Print (FetchingUserId username); ProfileRequest username] in
      match fetch_user_id net username with
      | Failed e =>
          let '(said, how) := handle e in (asked ++ lookup ++ said, how)
      | Fetched user_id =>
          let found := [Print (UserIdFound user_id)] in
          match fetch_years net user_id years ∅ with
          | (events, Failed e) =>
              let '(said, how) := handle e in
              (asked ++ lookup ++ found ++ events ++ said, how)
          | (events, Fetched activities_by_year) =>
              let before := asked ++ lookup ++ found ++ events in
              if decide (activities_by_year = ∅)
              then (before ++ [Print NoDataForAnyYear], Exit 0)
              else
                let combined_years := sorted_keys activities_by_year in
                match build_combined_series today combined_years activities_by_year with
                | Returns (dates, counts) =>
                    (before ++ [Plot username (label_of combined_years) dates counts],
                     Exit 0)
                | Raises (ValueError why) =>
                    (before ++ [Print (ErrorFromSeries why)], Exit 1)
                | Raises _ => (before, Uncaught)
                | OutOfFuel => (before, Unfinished)
                end
          end
      end
  end.

(** The requests and the chart among the events of a run. *)
Definition is_request (e : event) : bool :=
  match e with ProfileRequest _ | YearlyRequest _ _ => true | _ => false end.

Definition is_plot (e : event) : bool :=
  match e with Plot _ _ _ _ => true | _ => false end.

(** The years for which the service has activity data. *)
Definition has_data (net : network) (user_id : jvalue) (y : Z) : bool :=
  match fetch_yearly_activity net user_id y with
  | Fetched (Some _) => true
  | _ => false
  end.
(** The messages of the error paths of [main] (lines 205, 234 and 237). *)
Definition is_error (m : message) : bool :=
  match m with
  | YearValuesMustBeNumbers | RequestFailed _ | ErrorFromFetch _
  | ErrorFromSeries _ => true
  | _ => false
  end.

(** Answers of the service: a 200 response with a JSON payload, a 404, and the
    payloads [{"data": {"_id": id}}] and [{"data": {"yearlyActivity": l}}]. *)
Definition ok (payload : jvalue) : sent :=
  Response {| status_code := 200; body := Some payload |}.

Definition not_found : sent := Response {| status_code := 404; body := None |}.

Definition profile_of (user_id : string) : jvalue :=
  JObject [("data", JObject [("_id", JScalar (PyStr user_id))])].

Definition activity_of (l : list entry) : jvalue :=
  JObject [("data", JObject [("yearlyActivity", JRecords l)])].

(** ** Vocabulary of the further properties *)

(** The string does not begin with a character of the set [p]. *)
Definition starts_clean (p : ascii -> bool) (s : string) : Prop :=
  match s with EmptyString => True | String c _ => p c = false end.





(** * Properties *)

(** ** The calendar *)

Section calendar_facts.
Import Calendar.

Lemma is_leap_cases y :
  (is_leap y = true /\ days_in_year y = 366) \/ (is_leap y = false /\ days_in_year y = 365).
Proof. unfold days_in_year. destruct (is_leap y); auto. Qed.

Lemma days_before_year_succ y :
  days_before_year (y + 1) = days_before_year y + days_in_year y.
Proof.
  unfold days_before_year, days_in_year, is_leap.
  replace (y + 1 - 1) with y by lia.
  destruct (y mod 4 =? 0) eqn:H4; destruct (y mod 100 =? 0) eqn:H100;
    destruct (y mod 400 =? 0) eqn:H400; simpl;
    Z.to_euclidean_division_equations; lia.
Qed.

Lemma days_before_year_mono y1 y2 :
  1 <= y1 -> y1 < y2 -> days_before_year y1 + 365 * (y2 - y1) <= days_before_year y2.
Proof.
  unfold days_before_year. intros. Z.to_euclidean_division_equations. lia.
Qed.

Lemma valid_fields d :
  valid d ->
  MINYEAR <= year d <= MAXYEAR /\ 1 <= month d <= 12 /\
  1 <= day d <= days_in_month (year d) (month d).
Proof.
  unfold valid, check_date_fields. rewrite !andb_true_iff. lia.
Qed.

Lemma fields_valid y m d :
  MINYEAR <= y <= MAXYEAR -> 1 <= m <= 12 -> 1 <= d <= days_in_month y m ->
  valid (Date y m d).
Proof. unfold valid, check_date_fields; simpl. rewrite !andb_true_iff. lia. Qed.

(** The months, one case each. *)
Lemma month_cases m :
  1 <= m <= 12 ->
  m = 1 \/ m = 2 \/ m = 3 \/ m = 4 \/ m = 5 \/ m = 6 \/
  m = 7 \/ m = 8 \/ m = 9 \/ m = 10 \/ m = 11 \/ m = 12.
Proof. lia. Qed.

Lemma month_end y m :
  1 <= m < 12 ->
  days_before_month y m + days_in_month y m = days_before_month y (m + 1).
Proof.
  intros Hm. assert (H : 1 <= m <= 12) by lia.
  destruct (month_cases m H) as [->|[->|[->|[->|[->|[->|[->|[->|[->|[->|[->| ->]]]]]]]]]]];
    try lia; unfold days_before_month, days_in_month; simpl;
    destruct (is_leap y); simpl; lia.
Qed.

Lemma year_end y :
  days_before_month y 12 + days_in_month y 12 = days_in_year y.
Proof.
  unfold days_before_month, days_in_month, days_in_year; simpl.
  destruct (is_leap y); simpl; lia.
Qed.

Lemma days_in_month_pos y m : 1 <= m <= 12 -> 28 <= days_in_month y m.
Proof.
  intros H.
  destruct (month_cases m H) as [->|[->|[->|[->|[->|[->|[->|[->|[->|[->|[->| ->]]]]]]]]]]];
    unfold days_in_month; simpl; destruct (is_leap y); simpl; lia.
Qed.

Lemma days_before_month_mono y m1 m2 :
  1 <= m1 -> m1 < m2 -> m2 <= 12 ->
  days_before_month y m1 + days_in_month y m1 <= days_before_month y m2.
Proof.
  intros H1 H12 H2.
  assert (Ha : 1 <= m1 <= 12) by lia. assert (Hb : 1 <= m2 <= 12) by lia.
  destruct (month_cases m1 Ha) as [->|[->|[->|[->|[->|[->|[->|[->|[->|[->|[->| ->]]]]]]]]]]];
  destruct (month_cases m2 Hb) as [->|[->|[->|[->|[->|[->|[->|[->|[->|[->|[->| ->]]]]]]]]]]];
    try lia; unfold days_before_month, days_in_month; simpl;
    destruct (is_leap y); simpl; lia.
Qed.

Lemma day_of_year_bounds d :
  valid d ->
  1 <= days_before_month (year d) (month d) + day d <= days_in_year (year d).
Proof.
  intros (Hy & Hm & Hd)%valid_fields.
  pose proof (year_end (year d)).
  destruct (decide (month d = 12)) as [E|E].
  - rewrite E in *. unfold days_before_month in *; simpl in *. destruct (is_leap (year d)); simpl in *; lia.
  - pose proof (days_before_month_mono (year d) (month d) 12).
    assert (0 <= days_before_month (year d) (month d)).
    { destruct (month_cases _ Hm) as [->|[->|[->|[->|[->|[->|[->|[->|[->|[->|[->| ->]]]]]]]]]]];
      unfold days_before_month; simpl; destruct (is_leap (year d)); simpl; lia. }
    pose proof (days_in_month_pos (year d) 12). lia.
Qed.

Lemma leb_ordinal a b :
  valid a -> valid b -> leb a b = true <-> toordinal a <= toordinal b.
Proof.
  intros Ha Hb.
  pose proof (day_of_year_bounds a Ha). pose proof (day_of_year_bounds b Hb).
  destruct (valid_fields a Ha) as (Hya & Hma & Hda).
  destruct (valid_fields b Hb) as (Hyb & Hmb & Hdb).
  unfold MINYEAR in *.
  unfold leb, toordinal, ymd2ord.
  rewrite orb_true_iff, andb_true_iff, orb_true_iff, andb_true_iff.
  rewrite !Z.ltb_lt, !Z.eqb_eq, Z.leb_le.
  destruct (Z.lt_trichotomy (year a) (year b)) as [Hlt|[Heq|Hgt]].
  - pose proof (days_before_year_mono (year a) (year b)).
    pose proof (days_before_year_succ (year a)).
    destruct (is_leap_cases (year a)) as [[_ ?]|[_ ?]];
    destruct (decide (year a + 1 = year b)) as [E|E];
      try (rewrite <- E in *); try pose proof (days_before_year_mono (year a + 1) (year b));
      split; intros; try lia.
  - rewrite Heq in *.
    destruct (Z.lt_trichotomy (month a) (month b)) as [Hl|[He|Hg]].
    + pose proof (days_before_month_mono (year b) (month a) (month b)). split; intros; lia.
    + rewrite He in *. split; intros; lia.
    + pose proof (days_before_month_mono (year b) (month b) (month a)). split; intros; lia.
  - pose proof (days_before_year_succ (year b)).
    destruct (is_leap_cases (year b)) as [[_ ?]|[_ ?]];
    destruct (decide (year b + 1 = year a)) as [E|E];
      try (rewrite <- E in *); try pose proof (days_before_year_mono (year b + 1) (year a));
      split; intros; try lia.
Qed.

Lemma ltb_ordinal a b :
  valid a -> valid b -> ltb a b = true <-> toordinal a < toordinal b.
Proof.
  intros Ha Hb. unfold ltb. rewrite negb_true_iff, <- not_true_iff_false.
  rewrite (leb_ordinal b a Hb Ha). lia.
Qed.

Lemma toordinal_inj a b :
  valid a -> valid b -> toordinal a = toordinal b -> a = b.
Proof.
  intros Ha Hb E.
  assert (H1 : leb a b = true) by (apply leb_ordinal; auto; lia).
  assert (H2 : leb b a = true) by (apply leb_ordinal; auto; lia).
  unfold leb in H1, H2. destruct a as [ya ma da], b as [yb mb db]; simpl in *.
  assert (ya = yb /\ ma = mb /\ da = db) as (-> & -> & ->); [|done].
  rewrite orb_true_iff, andb_true_iff, orb_true_iff, andb_true_iff in H1, H2.
  rewrite !Z.ltb_lt, !Z.eqb_eq, Z.leb_le in H1, H2. lia.
Qed.

Lemma min_valid a b : valid a -> valid b -> valid (min a b).
Proof. unfold min. by destruct (ltb b a). Qed.

Lemma min_ordinal a b :
  valid a -> valid b -> toordinal (min a b) = Z.min (toordinal a) (toordinal b).
Proof.
  intros Ha Hb. unfold min. destruct (ltb b a) eqn:E.
  - apply ltb_ordinal in E; auto. lia.
  - apply not_true_iff_false in E. rewrite (ltb_ordinal b a Hb Ha) in E. lia.
Qed.

Lemma new_valid y m d x : new y m d = Returns x -> valid x /\ x = Date y m d.
Proof.
  unfold new, valid. destruct (check_date_fields y m d) eqn:E; [|done].
  intros [= <-]. auto.
Qed.

Lemma new_year_range y m d :
  (exists x, new y m d = Returns x) \/ new y m d = Raises (ValueError DateOutOfRange).
Proof. unfold new. destruct (check_date_fields y m d); eauto. Qed.

Lemma new_jan1 y : MINYEAR <= y <= MAXYEAR -> new y 1 1 = Returns (Date y 1 1).
Proof.
  intros H. unfold new, check_date_fields.
  pose proof (days_in_month_pos y 1).
  replace (MINYEAR <=? y) with true by (symmetry; apply Z.leb_le; lia).
  replace (y <=? MAXYEAR) with true by (symmetry; apply Z.leb_le; lia).
  replace (1 <=? days_in_month y 1) with true by (symmetry; apply Z.leb_le; lia).
  done.
Qed.

Lemma new_dec31 y : MINYEAR <= y <= MAXYEAR -> new y 12 31 = Returns (Date y 12 31).
Proof.
  intros H. unfold new, check_date_fields.
  replace (MINYEAR <=? y) with true by (symmetry; apply Z.leb_le; lia).
  replace (y <=? MAXYEAR) with true by (symmetry; apply Z.leb_le; lia).
  done.
Qed.


Lemma jan1_ordinal y : toordinal (Date y 1 1) = days_before_year y + 1.
Proof. unfold toordinal, ymd2ord, days_before_month; simpl. lia. Qed.

Lemma dec31_ordinal y :
  toordinal (Date y 12 31) = days_before_year y + days_in_year y.
Proof.
  unfold toordinal, ymd2ord, days_before_month, days_in_year; simpl.
  destruct (is_leap y); simpl; lia.
Qed.

Lemma ordinal_bounds d : valid d -> 1 <= toordinal d <= MAXORDINAL.
Proof.
  intros Hd. pose proof (day_of_year_bounds d Hd).
  destruct (valid_fields d Hd) as (Hy & _). unfold MINYEAR, MAXYEAR in Hy.
  unfold toordinal, ymd2ord.
  pose proof (days_before_year_succ (year d)).
  assert (0 <= days_before_year (year d)).
  { unfold days_before_year. Z.to_euclidean_division_equations. lia. }
  assert (days_before_year (year d + 1) <= MAXORDINAL).
  { unfold MAXORDINAL, days_before_year. Z.to_euclidean_division_equations. lia. }
  lia.
Qed.

Lemma add_day_spec d :
  valid d ->
  (toordinal d < MAXORDINAL /\
   exists d', add_day d = Returns d' /\ valid d' /\ toordinal d' = toordinal d + 1)
  \/ (d = max /\ add_day d = Raises OverflowError).
Proof.
  intros Hd. destruct (valid_fields d Hd) as (Hy & Hm & Hday).
  pose proof (ordinal_bounds d Hd) as Hb.
  unfold add_day.
  destruct (day d <? days_in_month (year d) (month d)) eqn:E1.
  - apply Z.ltb_lt in E1. left.
    assert (Hv : valid (Date (year d) (month d) (day d + 1))) by (apply fields_valid; lia).
    pose proof (ordinal_bounds _ Hv) as Hb'.
    assert (toordinal (Date (year d) (month d) (day d + 1)) = toordinal d + 1)
      by (unfold toordinal, ymd2ord; simpl; lia).
    split; [lia|]. eauto.
  - apply Z.ltb_ge in E1.
    destruct (month d <? 12) eqn:E2.
    + apply Z.ltb_lt in E2. left.
      assert (Hv : valid (Date (year d) (month d + 1) 1)).
      { apply fields_valid; try lia. pose proof (days_in_month_pos (year d) (month d + 1)). lia. }
      pose proof (ordinal_bounds _ Hv) as Hb'.
      assert (toordinal (Date (year d) (month d + 1) 1) = toordinal d + 1).
      { unfold toordinal, ymd2ord; simpl.
        pose proof (month_end (year d) (month d)). lia. }
      split; [lia|]. eauto.
    + apply Z.ltb_ge in E2. assert (Em : month d = 12) by lia.
      assert (Ed : day d = 31).
      { rewrite Em in *. unfold days_in_month in *; simpl in *. lia. }
      destruct (year d <? MAXYEAR) eqn:E3.
      * apply Z.ltb_lt in E3. left.
        assert (Hv : valid (Date (year d + 1) 1 1)).
        { apply fields_valid; try lia. pose proof (days_in_month_pos (year d + 1) 1). lia. }
        pose proof (ordinal_bounds _ Hv) as Hb'.
        assert (toordinal (Date (year d + 1) 1 1) = toordinal d + 1).
        { rewrite jan1_ordinal, days_before_year_succ.
          destruct d as [y m dd]; simpl in *; subst. rewrite dec31_ordinal. lia. }
        split; [lia|]. eauto.
      * apply Z.ltb_ge in E3. right. split; [|done].
        destruct d as [y m dd]; simpl in *. unfold max. f_equal; lia.
Qed.
End calendar_facts.

Section loop_facts.
Import Calendar.

Lemma bind_returns {A B} (c : outcome A) (k : A -> outcome B) a :
  c = Returns a -> (c ≫= k) = k a.
Proof. by intros ->. Qed.

Lemma walk_spec m end_date :
  valid end_date -> toordinal end_date < MAXORDINAL ->
  forall fuel cursor,
    valid cursor ->
    toordinal end_date - toordinal cursor + 1 <= Z.of_nat fuel ->
    exists ds,
      walk fuel m cursor end_date = Returns (ds, counts_of m ds) /\
      Z.of_nat (length ds) = Z.max 0 (toordinal end_date - toordinal cursor + 1) /\
      daily_from cursor ds.
Proof.
  intros He Hmax. induction fuel as [|fuel IH]; intros cursor Hc Hfuel.
  - exists []. assert (L : leb cursor end_date = false).
    { apply not_true_iff_false. rewrite leb_ordinal by done. lia. }
    simpl. rewrite L. split_and!; [done|simpl; lia|]. by intros i d ?.
  - simpl. destruct (leb cursor end_date) eqn:L.
    + apply leb_ordinal in L; [|done..].
      destruct (add_day_spec cursor Hc) as [(_ & next & -> & Hn & Hord)|[-> _]].
      2:{ pose proof (ordinal_bounds end_date He). exfalso.
          change (toordinal max) with MAXORDINAL in L. lia. }
      destruct (IH next Hn) as (ds & Hw & Hlen & Hdaily); [lia|].
      exists (cursor :: ds). cbn. rewrite Hw. cbn.
      split_and!; [done|lia|].
      intros [|i] d; simpl.
      * intros [= <-]. split; [done|lia].
      * intros Hi. destruct (Hdaily i d Hi) as [? ?]. split; [done|lia].
    + exists []. apply not_true_iff_false in L. rewrite leb_ordinal in L by done.
      split_and!; [done|simpl; lia|]. by intros i d ?.
Qed.

Lemma walk_overflow m fuel cursor :
  valid cursor ->
  toordinal max - toordinal cursor + 1 <= Z.of_nat fuel ->
  walk fuel m cursor max = Raises OverflowError.
Proof.
  revert cursor. induction fuel as [|fuel IH]; intros cursor Hc Hfuel.
  - pose proof (ordinal_bounds cursor Hc). change (toordinal max) with MAXORDINAL in Hfuel. lia.
  - simpl. assert (L : leb cursor max = true).
    { apply leb_ordinal; [done|done|]. pose proof (ordinal_bounds cursor Hc).
      change (toordinal max) with MAXORDINAL. lia. }
    rewrite L.
    destruct (add_day_spec cursor Hc) as [(_ & next & -> & Hn & Hord)|[-> ->]]; [|done].
    simpl. rewrite IH; [done|done|lia].
Qed.

Lemma daily_from_length_lookup start ds i d :
  daily_from start ds -> ds !! i = Some d -> toordinal d = toordinal start + Z.of_nat i.
Proof. intros H Hi. by destruct (H i d Hi). Qed.




Lemma daily_from_elem start ds d :
  daily_from start ds -> valid start -> valid d ->
  toordinal start <= toordinal d < toordinal start + Z.of_nat (length ds) ->
  ds !! Z.to_nat (toordinal d - toordinal start) = Some d.
Proof.
  intros H Vs Vd Hr.
  destruct (lookup_lt_is_Some_2 ds (Z.to_nat (toordinal d - toordinal start))) as [x Hx]; [lia|].
  rewrite Hx. f_equal. destruct (H _ _ Hx) as [Vx Ox].
  apply toordinal_inj; [done..|lia].
Qed.

Lemma length_counts_of m ds : length (counts_of m ds) = length ds.
Proof. unfold counts_of. by rewrite length_fmap. Qed.


End loop_facts.

Section map_facts.
Import Calendar.

Lemma fromisoformat_cases s :
  (exists d, fromisoformat s = Returns d /\ valid d)
  \/ fromisoformat s = Raises (ValueError InvalidIsoFormat).
Proof.
  unfold fromisoformat.
  match goal with |- context [match ?p with Some _ => _ | None => _ end] =>
    destruct p as [d|] eqn:E end; [|by right].
  left. exists d. split; [done|].
  apply bind_Some in E as ([y s1] & _ & E).
  apply bind_Some in E as (s2 & _ & E).
  apply bind_Some in E as ([m s3] & _ & E).
  apply bind_Some in E as (s4 & _ & E).
  apply bind_Some in E as ([dd s5] & _ & E).
  destruct (PyStr.is_empty s5); [|done].
  destruct (check_date_fields y m dd) eqn:C; [|done].
  cbn in E. by injection E as <-.
Qed.

Lemma malformed_not_dated e d : malformed_date e -> ~ dated d e.
Proof. intros [why H]. unfold dated. by rewrite H. Qed.








Lemma add_to_map_app l1 l2 m :
  add_to_map (l1 ++ l2) m = add_to_map l1 m ≫= add_to_map l2.
Proof.
  revert m. induction l1 as [|e l1 IH]; intros m; [done|].
  cbn. destruct (entry_count e) as [c| |]; cbn; [|done..].
  destruct (fromisoformat (entry_date_str e)) as [d|[]|]; cbn; auto.
Qed.

Lemma add_years_flat years aby m :
  add_years years aby m = add_to_map (all_records years aby) m.
Proof.
  revert m. induction years as [|y years IH]; intros m; [done|].
  unfold all_records. cbn. rewrite add_to_map_app.
  destruct (add_to_map (default [] (aby !! y)) m); cbn; [|done..]. apply IH.
Qed.





End map_facts.

Section builder_facts.
Import Calendar.

Lemma entry_count_missing (e : entry) : e !! "count" = None -> entry_count e = Returns 0.
Proof. intros H. unfold entry_count. by rewrite H. Qed.

Lemma entry_count_null (e : entry) : e !! "count" = Some PyNone -> entry_count e = Returns 0.
Proof. intros H. unfold entry_count. by rewrite H. Qed.




















End builder_facts.

(** ** The input resolver *)

Section resolver_facts.

Lemma elem_of_sorted_set y l : y ∈ sorted_set l <-> y ∈ l.
Proof.
  unfold sorted_set. rewrite merge_sort_Permutation, elem_of_elements.
  apply elem_of_list_to_set.
Qed.

Lemma NoDup_sorted_set l : NoDup (sorted_set l).
Proof. unfold sorted_set. rewrite merge_sort_Permutation. apply NoDup_elements. Qed.

Lemma sorted_set_le l : StronglySorted Z.le (sorted_set l).
Proof. unfold sorted_set. apply (StronglySorted_merge_sort Z.le). Qed.

Lemma StronglySorted_le_lt l : StronglySorted Z.le l -> NoDup l -> StronglySorted Z.lt l.
Proof.
  induction 1 as [|x l Hs IH Hx]; intros Hn; [constructor|].
  apply NoDup_cons in Hn as [Hnx Hn]. constructor; [by apply IH|].
  apply Forall_forall. intros y Hy. rewrite Forall_forall in Hx.
  specialize (Hx y Hy). assert (x <> y) by (intros ->; done). lia.
Qed.

Lemma sorted_set_lt l : StronglySorted Z.lt (sorted_set l).
Proof. apply StronglySorted_le_lt; [apply sorted_set_le|apply NoDup_sorted_set]. Qed.

Lemma sorted_set_singleton x : sorted_set [x] = [x].
Proof.
  unfold sorted_set. apply Permutation_singleton_r.
  rewrite merge_sort_Permutation. cbn. rewrite (right_id_L ∅ (∪)).
  by rewrite elements_singleton.
Qed.

Lemma resolve_year_none today : resolve_year today PyNone = Returns (year today).
Proof. done. Qed.

Lemma resolve_year_opt today o :
  resolve_year today (opt_int o) = Returns (default (year today) o).
Proof. by destruct o. Qed.

Lemma range_swap a b :
  (let '(start, end_) := if b <? a then (b, a) else (a, b) in
   range start (end_ + 1)) = seqZ (Z.min a b) (Z.max a b - Z.min a b + 1).
Proof.
  unfold range. destruct (b <? a) eqn:E.
  - apply Z.ltb_lt in E. rewrite Z.min_r, Z.max_l by lia. f_equal. lia.
  - apply Z.ltb_ge in E. rewrite Z.min_l, Z.max_r by lia. f_equal. lia.
Qed.

Lemma parse_years_spec today args :
  parse_years today args =
  (l ← listed_years args;
   let years := (l ++ range_years today args)%list in
   mret (sorted_set (match years with [] => [single_year today args] | _ => years end))).
Proof.
  unfold parse_years, listed_years, range_years, single_year.
  destruct args as [i u y ys s e]; cbn [Args.years Args.year Args.year_start Args.year_end].
  assert (H : (if PyObj.truthy (opt_str ys) then parse_items (PyStr.split "," (PyObj.str (opt_str ys))) else mret [])
          = match ys with Some s0 => if PyStr.is_empty s0 then mret [] else parse_items (PyStr.split "," s0) | None => mret [] end).
  { destruct ys as [[|c r]|]; done. }
  rewrite H. clear H.
  match goal with |- context [match ys with Some _ => _ | None => _ end] =>
    generalize (match ys with Some s0 => if PyStr.is_empty s0 then mret [] else parse_items (PyStr.split "," s0) | None => mret [] end) end.
  intros [l| |]; cbn; [|done..].
  assert (R : forall a b, (let '(start, end_) := if b <? a then (b, a) else (a, b) in
        Returns (l ++ range start (end_ + 1))%list) = Returns (l ++ seqZ (Z.min a b) (Z.max a b - Z.min a b + 1))%list).
  { intros a b. rewrite <- range_swap. by destruct (b <? a). }
  destruct s as [a|], e as [b|]; cbn; rewrite ?R; cbn.
  - destruct (l ++ _)%list; cbn; [by rewrite resolve_year_opt|done].
  - destruct (l ++ _)%list; cbn; [by rewrite resolve_year_opt|done].
  - destruct (l ++ _)%list; cbn; [by rewrite resolve_year_opt|done].
  - rewrite app_nil_r. destruct l; cbn; [by rewrite resolve_year_opt|done].
Qed.

Lemma elem_of_range_years today args y :
  y ∈ range_years today args <->
  (is_Some (Args.year_start args) \/ is_Some (Args.year_end args)) /\
  let a := default (year today) (Args.year_start args) in
  let b := default (year today) (Args.year_end args) in
  Z.min a b <= y <= Z.max a b.
Proof.
  unfold range_years.
  destruct (Args.year_start args) as [a|], (Args.year_end args) as [b|]; cbn;
    rewrite ?elem_of_seqZ.
  1-3: split; [intros; split; [eauto|lia]|intros [_ ?]; lia].
  split; [by intros ?%elem_of_nil|]. intros [[[? [=]]|[? [=]]] _].
Qed.


Lemma index_first (x : string) pre rest :
  x ∉ pre -> index x (pre ++ x :: rest) = Some (length pre).
Proof.
  unfold index. induction pre as [|a pre IH]; intros Hx; cbn.
  - by rewrite decide_True.
  - apply not_elem_of_cons in Hx as [Hne Hx].
    rewrite decide_False by done. specialize (IH Hx).
    destruct (list_find _ (pre ++ x :: rest)) as [[i y]|]; [|done].
    cbn in *. by injection IH as ->.
Qed.

Lemma split_nonempty sep s : PyStr.split sep s <> [].
Proof.
  destruct s as [|c r]; cbn; [done|].
  destruct (Ascii.eqb c sep); [done|]. by destruct (PyStr.split sep r).
Qed.

Lemma parts_cases (parts : list string) :
  (exists pre s rest, parts = pre ++ "p" :: s :: rest /\ "p" ∉ pre)
  \/ (exists pre, parts = pre ++ ["p"] /\ "p" ∉ pre)
  \/ "p" ∉ parts.
Proof.
  destruct (decide ("p" ∈ parts)) as [Hin|Hout]; [|by right; right].
  apply list_elem_of_split_l in Hin as (pre & [|s rest] & -> & Hpre).
  - right; left. eauto.
  - left. eauto 6.
Qed.

Lemma username_after_p typed username raw_input pre s rest :
  let text := PyStr.strip (resolve_candidate typed username raw_input) in
  is_url text = true ->
  url_parts text = pre ++ "p" :: s :: rest -> "p" ∉ pre ->
  resolve_username typed username raw_input = s.
Proof.
  intros text Hurl Hparts Hpre. unfold resolve_username. fold text.
  rewrite Hurl. cbv zeta. rewrite Hparts.
  rewrite bool_decide_eq_true_2 by set_solver.
  rewrite index_first by done.
  assert (L : (length pre + 1 <? length (pre ++ "p" :: s :: rest))%nat = true).
  { apply Nat.ltb_lt. rewrite length_app. cbn. lia. }
  rewrite L. rewrite lookup_app_r by lia.
  by replace (length pre + 1 - length pre)%nat with 1%nat by lia.
Qed.

Lemma username_last_segment typed username raw_input seg :
  let text := PyStr.strip (resolve_candidate typed username raw_input) in
  is_url text = true ->
  "p" ∉ url_parts text \/ (exists pre, url_parts text = pre ++ ["p"] /\ "p" ∉ pre) ->
  last (url_parts text) = Some seg ->
  resolve_username typed username raw_input = seg.
Proof.
  intros text Hurl Hcase Hlast. unfold resolve_username. fold text.
  rewrite Hurl. cbv zeta. destruct Hcase as [Hout|(pre & Hparts & Hpre)].
  - rewrite bool_decide_eq_false_2 by done. by rewrite Hlast.
  - rewrite Hparts in *. rewrite bool_decide_eq_true_2 by set_solver.
    rewrite index_first by done.
    assert (L : (length pre + 1 <? length (pre ++ ["p"]))%nat = false).
    { apply Nat.ltb_ge. rewrite length_app. cbn. lia. }
    by rewrite L, Hlast.
Qed.

Lemma username_plain typed username raw_input :
  let text := PyStr.strip (resolve_candidate typed username raw_input) in
  is_url text = false -> resolve_username typed username raw_input = text.
Proof. intros text Hurl. unfold resolve_username. fold text. by rewrite Hurl. Qed.


(** What [parse_items] returns: the integers of the items that are not
    blank, in order. *)
Lemma parse_items_spec items l :
  parse_items items = Returns l ->
  Forall2 (fun item n => PyStr.int (PyStr.strip item) = Returns n)
    (filter (fun item => PyStr.is_empty (PyStr.strip item) = false) items) l.
Proof.
  revert l. induction items as [|item items IH]; intros l H; cbn in H.
  - injection H as <-. constructor.
  - destruct (PyStr.is_empty (PyStr.strip item)) eqn:E.
    + rewrite filter_cons_False by (rewrite E; done). by apply IH.
    + rewrite filter_cons_True by done.
      destruct (PyStr.int (PyStr.strip item)) as [n| |] eqn:En; cbn in H; [|done..].
      destruct (parse_items items) as [ns| |]; cbn in H; [|done..].
      injection H as <-. constructor; [done|]. by apply IH.
Qed.

Lemma parse_years_members today args ys :
  parse_years today args = Returns ys ->
  exists listed,
    listed_years args = Returns listed /\
    ys = sorted_set (match listed ++ range_years today args with
                     | [] => [single_year today args]
                     | _ => listed ++ range_years today args
                     end).
Proof.
  rewrite parse_years_spec. intros H.
  destruct (listed_years args) as [listed| |] eqn:Hl; cbn in H; [|done..].
  injection H as <-. exists listed. split; reflexivity.
Qed.

End resolver_facts.



(** C10, counterexample: the last segment of
    ["https://tryhackme.com/p/alice/p"] is [p], but an earlier [p] segment has
    a successor, so the result is ["alice"] and not ["p"]. *)
Lemma last_segment_p_counterexample :
  let text := "https://tryhackme.com/p/alice/p" in
  is_url text = true /\ last (url_parts text) = Some "p"
  /\ resolve_username "" (Some text) None = "alice"
  /\ resolve_username "" (Some text) None <> "p".
Proof. vm_compute. by split_and!. Qed.

(** C10, as amended.  For every URL whose segments, after trailing slashes
    are stripped, end in [p] and hold no earlier [p] segment,
    [resolve_username] returns ["p"]: the segment-after-[p] rule needs a
    segment after the first [p], and the last-segment fallback returns [p]
    itself. *)
Theorem resolve_username_lone_p typed username raw_input pre :
  let text := PyStr.strip (resolve_candidate typed username raw_input) in
  is_url text = true ->
  url_parts text = pre ++ ["p"] -> "p" ∉ pre ->
  resolve_username typed username raw_input = "p".
Proof.
  intros text Hurl Hparts Hpre. apply username_last_segment; [done|eauto|].
  fold text. rewrite Hparts. apply last_snoc.
Qed.

Lemma resolve_username_lone_p_witness :
  resolve_username "" (Some "https://tryhackme.com/p") None = "p"
  /\ resolve_username "" None (Some "https://tryhackme.com/p/") = "p".
Proof.
  split.
  - apply (resolve_username_lone_p "" (Some "https://tryhackme.com/p") None
             ["https:"; ""; "tryhackme.com"]);
      [reflexivity|reflexivity|compute_done].
  - apply (resolve_username_lone_p "" None (Some "https://tryhackme.com/p/")
             ["https:"; ""; "tryhackme.com"]);
      [reflexivity|reflexivity|compute_done].
Defined.

(** C5, counterexample: with [--years 2023 --year 2020] the single year value
    is 2020, yet [parse_years] returns [[2023]]: the single value is not
    combined with the list. *)
Lemma single_year_not_combined :
  let today := Date 2026 11 3 in
  let args := args_of (Some 2020) (Some "2023") None None in
  single_year today args = 2020 /\
  parse_years today args = Returns [2023] /\ 2020 ∉ [2023].
Proof. split_and!; [reflexivity|reflexivity|compute_done]. Qed.

(** C5, as amended.  [parse_years] combines the comma-separated list (each
    non-blank item parsed as an integer, blank items skipped) and the
    start/end range (a missing endpoint is the current year, the endpoints are
    ordered, the range is inclusive): when they contribute at least one year,
    the result holds exactly their years.  The single year value is read only
    when list and range contribute nothing; the result is then that value
    alone, or the current year when it is absent. *)
Theorem parse_years_sources today args ys :
  parse_years today args = Returns ys ->
  exists listed,
    listed_years args = Returns listed /\
    (forall s, Args.years args = Some s ->
       Forall2 (fun item n => PyStr.int (PyStr.strip item) = Returns n)
         (filter (fun item => PyStr.is_empty (PyStr.strip item) = false)
                 (PyStr.split "," s))
         listed) /\
    (forall y, y ∈ range_years today args <->
       (is_Some (Args.year_start args) \/ is_Some (Args.year_end args)) /\
       let a := default (year today) (Args.year_start args) in
       let b := default (year today) (Args.year_end args) in
       Z.min a b <= y <= Z.max a b) /\
    (listed ++ range_years today args <> [] ->
       forall y, y ∈ ys <-> y ∈ listed \/ y ∈ range_years today args) /\
    (listed ++ range_years today args = [] ->
       ys = [default (year today) (Args.year args)]).
Proof.
  intros H. destruct (parse_years_members today args ys H) as (listed & Hl & ->).
  exists listed. split_and!; [done| | | |].
  - intros s Hs. unfold listed_years in Hl. rewrite Hs in Hl.
    destruct s as [|c r].
    + cbn in Hl. injection Hl as <-. cbn. constructor.
    + by apply parse_items_spec.
  - intros y. apply elem_of_range_years.
  - intros Hne y. rewrite elem_of_sorted_set.
    destruct (listed ++ range_years today args) eqn:E; [done|].
    rewrite <- E. apply elem_of_app.
  - intros ->. apply sorted_set_singleton.
Qed.

Lemma parse_years_sources_witness :
  parse_years (Date 2026 11 3) (args_of (Some 2020) (Some "2029, ,2023") (Some 2025) None)
    = Returns [2023; 2025; 2026; 2029]
  /\ 2026 ∈ [2023; 2025; 2026; 2029].
Proof.
  split; [reflexivity|].
  destruct (parse_years_sources (Date 2026 11 3)
              (args_of (Some 2020) (Some "2029, ,2023") (Some 2025) None)
              [2023; 2025; 2026; 2029] eq_refl)
    as (listed & Hl & _ & Hr & Hall & _).
  vm_compute in Hl. injection Hl as <-.
  apply Hall; [done|]. right. apply Hr. split; [left; eauto|]. cbn. lia.
Defined.

(** C8.  Normalisation in [parse_years]: the returned list is sorted strictly
    ascending, hence free of duplicates; a range given with start > end holds
    every year from end to start; [--years 2023,2024] gives [[2023; 2024]] and
    [--year-start 2022 --year-end 2020] gives [[2020; 2021; 2022]]. *)
Theorem parse_years_normalized today args ys :
  parse_years today args = Returns ys ->
  StronglySorted Z.lt ys /\ NoDup ys
  /\ (forall a b,
        Args.year_start args = Some a -> Args.year_end args = Some b -> b < a ->
        forall y, b <= y <= a -> y ∈ ys)
  /\ parse_years today (args_of None (Some "2023,2024") None None)
       = Returns [2023; 2024]
  /\ parse_years today (args_of None None (Some 2022) (Some 2020))
       = Returns [2020; 2021; 2022].
Proof.
  intros H. destruct (parse_years_members today args ys H) as (listed & Hl & ->).
  split_and!; [| | |reflexivity..].
  - apply sorted_set_lt.
  - apply NoDup_sorted_set.
  - intros a b Ha Hb Hlt y Hy. apply elem_of_sorted_set.
    assert (Hin : y ∈ range_years today args).
    { apply elem_of_range_years. rewrite Ha, Hb. split; [left; eauto|]. cbn. lia. }
    destruct (listed ++ range_years today args) eqn:E.
    + apply app_eq_nil in E as [_ E]. rewrite E in Hin. by apply elem_of_nil in Hin.
    + rewrite <- E. apply elem_of_app. by right.
Qed.

Lemma parse_years_normalized_witness :
  StronglySorted Z.lt [2019; 2020; 2021; 2022] /\ 2021 ∈ [2019; 2020; 2021; 2022].
Proof.
  destruct (parse_years_normalized (Date 2026 11 3)
              (args_of None (Some "2020,2019,2020") (Some 2022) (Some 2020))
              [2019; 2020; 2021; 2022] eq_refl)
    as (Hs & _ & Hswap & _).
  split; [exact Hs|]. apply (Hswap 2022 2020); [reflexivity|reflexivity|lia|lia].
Defined.

(** ** The series builders *)

Section series_facts.
Import Calendar.






Lemma nonneg_count_absent (e : entry) :
  e !! "count" = None \/ e !! "count" = Some PyNone -> nonneg_count e.
Proof.
  intros [H|H]; exists 0;
    [rewrite (entry_count_missing e H)|rewrite (entry_count_null e H)]; done.
Qed.

Lemma nonneg_convertible e : nonneg_count e -> convertible e.
Proof. intros (c & H & _). by exists c. Qed.

Lemma new_returns_range y m d x : new y m d = Returns x -> MINYEAR <= y <= MAXYEAR.
Proof.
  intros H. destruct (new_valid _ _ _ _ H) as [Hv ->].
  destruct (valid_fields _ Hv) as (? & _). done.
Qed.

Lemma leb_antisym a b : leb a b = true -> leb b a = true -> a = b.
Proof.
  unfold leb. destruct a as [ya ma da], b as [yb mb db]; cbn.
  rewrite !orb_true_iff, !andb_true_iff, !orb_true_iff, !andb_true_iff.
  rewrite !Z.ltb_lt, !Z.eqb_eq, !Z.leb_le. intros H1 H2.
  assert (ya = yb /\ ma = mb /\ da = db) as (-> & -> & ->) by lia. done.
Qed.

Lemma min_after a b : leb b a = true -> min a b = b.
Proof.
  intros H. unfold min, ltb. destruct (leb a b) eqn:E; cbn; [|done].
  by apply leb_antisym.
Qed.




Lemma daily_from_last start ds e :
  valid start -> valid e -> daily_from start ds -> 1 <= Z.of_nat (length ds) ->
  toordinal e = toordinal start + Z.of_nat (length ds) - 1 ->
  last ds = Some e.
Proof.
  intros Vs Ve Hd Hlen He. rewrite last_lookup.
  rewrite <- (daily_from_elem start ds e Hd Vs Ve) by lia. f_equal. lia.
Qed.








Lemma max_ordinal d : valid d -> toordinal d = MAXORDINAL -> d = max.
Proof. intros Vd Hd. by apply toordinal_inj. Qed.

(** The fuel [span] is enough: between valid dates the loop returns or
    overflows, and what it returns is the run of days from [start_date] to
    [end_date]. *)
Lemma walk_span m start_date end_date :
  valid start_date -> valid end_date ->
  toordinal start_date <= toordinal end_date ->
  (end_date = max /\
   walk (span start_date end_date) m start_date end_date = Raises OverflowError)
  \/ (toordinal end_date < MAXORDINAL /\
      exists ds,
        walk (span start_date end_date) m start_date end_date
          = Returns (ds, counts_of m ds) /\
        Z.of_nat (length ds) = toordinal end_date - toordinal start_date + 1 /\
        daily_from start_date ds).
Proof.
  intros Vs Ve Hle. pose proof (ordinal_bounds end_date Ve) as Hb.
  destruct (decide (toordinal end_date = MAXORDINAL)) as [E|E].
  - left. apply max_ordinal in E as ->; [|done]. split; [done|].
    apply walk_overflow; [done|]. unfold span. lia.
  - right. split; [lia|].
    destruct (walk_spec m end_date Ve ltac:(lia) (span start_date end_date)
                start_date Vs) as (ds & Hw & Hlen & Hd); [unfold span; lia|].
    exists ds. split_and!; [done|lia|done].
Qed.

Lemma gtb_false_ordinal a b :
  valid a -> valid b -> gtb a b = false -> toordinal a <= toordinal b.
Proof.
  intros Va Vb H. apply not_true_iff_false in H.
  unfold gtb in H. rewrite ltb_ordinal in H by done. lia.
Qed.

(** What a returned series looks like, for either builder. *)
Lemma walk_returned m start_date end_date ds cs :
  valid start_date -> valid end_date -> gtb start_date end_date = false ->
  walk (span start_date end_date) m start_date end_date = Returns (ds, cs) ->
  cs = counts_of m ds /\
  Z.of_nat (length ds) = toordinal end_date - toordinal start_date + 1 /\
  daily_from start_date ds.
Proof.
  intros Vs Ve Hgt Hw. pose proof (gtb_false_ordinal _ _ Vs Ve Hgt) as Hle.
  destruct (walk_span m start_date end_date Vs Ve Hle)
    as [[_ Hov]|(_ & ds' & Hw' & Hlen & Hd)]; [congruence|].
  rewrite Hw in Hw'. by injection Hw' as -> ->.
Qed.

Lemma build_date_series_returned today y activity ds cs :
  valid today ->
  build_date_series today y activity = Returns (ds, cs) ->
  MINYEAR <= y <= MAXYEAR /\
  length cs = length ds /\
  Z.of_nat (length ds)
    = toordinal (min today (Date y 12 31)) - toordinal (Date y 1 1) + 1 /\
  toordinal (Date y 1 1) <= toordinal (min today (Date y 12 31)) /\
  daily_from (Date y 1 1) ds.
Proof.
  intros Vt H. unfold build_date_series in H.
  destruct (fill_map activity ∅) as [m| |]; cbn in H; [|done..].
  destruct (new y 1 1) as [s| |] eqn:Hs; cbn in H; [|done..].
  destruct (new y 12 31) as [e| |] eqn:He; cbn in H; [|done..].
  pose proof (new_returns_range _ _ _ _ Hs) as Hy.
  destruct (new_valid _ _ _ _ Hs) as [Vs ->].
  destruct (new_valid _ _ _ _ He) as [Ve ->].
  destruct (gtb _ _) eqn:Hgt; [done|].
  pose proof (min_valid _ _ Vt Ve) as Vm.
  destruct (walk_returned _ _ _ _ _ Vs Vm Hgt H) as (-> & Hlen & Hd).
  pose proof (gtb_false_ordinal _ _ Vs Vm Hgt).
  split_and!; [lia|lia|apply length_counts_of|done..].
Qed.

Lemma build_combined_series_returned today years aby ds cs :
  valid today ->
  build_combined_series today years aby = Returns (ds, cs) ->
  years <> [] /\
  valid (Date (list_min years) 1 1) /\
  valid (min today (Date (list_max years) 12 31)) /\
  length cs = length ds /\
  Z.of_nat (length ds)
    = toordinal (min today (Date (list_max years) 12 31))
      - toordinal (Date (list_min years) 1 1) + 1 /\
  toordinal (Date (list_min years) 1 1)
    <= toordinal (min today (Date (list_max years) 12 31)) /\
  daily_from (Date (list_min years) 1 1) ds.
Proof.
  intros Vt H. unfold build_combined_series in H.
  destruct (add_years years aby ∅) as [m| |]; cbn -[list_min list_max] in H; [|done..].
  destruct years as [|y0 years']; [done|].
  destruct (new _ 1 1) as [s| |] eqn:Hs; cbn -[list_min list_max] in H; [|done..].
  destruct (new _ 12 31) as [e| |] eqn:He; cbn -[list_min list_max] in H; [|done..].
  destruct (new_valid _ _ _ _ Hs) as [Vs ->].
  destruct (new_valid _ _ _ _ He) as [Ve ->].
  destruct (gtb _ _) eqn:Hgt; [done|].
  pose proof (min_valid _ _ Vt Ve) as Vm.
  destruct (walk_returned _ _ _ _ _ Vs Vm Hgt H) as (-> & Hlen & Hd).
  pose proof (gtb_false_ordinal _ _ Vs Vm Hgt).
  split_and!; [done|done|done|apply length_counts_of|done..].
Qed.

(** With a valid clock neither builder runs out of fuel. *)
Lemma entry_count_fuel e : entry_count e <> OutOfFuel.
Proof.
  unfold entry_count, PyObj.int. destruct (PyObj.or _ _) as [|b|n|s]; try done.
  unfold PyStr.int. by repeat case_match.
Qed.

Lemma fill_map_fuel l m : fill_map l m <> OutOfFuel.
Proof.
  revert m. induction l as [|e l IH]; intros m; [done|]. cbn.
  destruct (entry_count e) as [c| |] eqn:Hc; cbn;
    [|done|by destruct (entry_count_fuel e)].
  destruct (fromisoformat_cases (entry_date_str e)) as [(d & -> & _)| ->]; apply IH.
Qed.


Lemma build_date_series_fuel today y activity :
  valid today -> build_date_series today y activity <> OutOfFuel.
Proof.
  intros Vt. unfold build_date_series.
  destruct (fill_map activity ∅) as [m| |] eqn:Hm; cbn; [|done|by destruct (fill_map_fuel _ _ Hm)].
  destruct (new y 1 1) as [s| |] eqn:Hs; cbn; [|done|by unfold new in Hs; destruct (check_date_fields _ _ _)].
  destruct (new y 12 31) as [e| |] eqn:He; cbn; [|done|by unfold new in He; destruct (check_date_fields _ _ _)].
  destruct (new_valid _ _ _ _ Hs) as [Vs ->].
  destruct (new_valid _ _ _ _ He) as [Ve ->].
  destruct (gtb _ _) eqn:Hgt; [done|].
  pose proof (min_valid _ _ Vt Ve) as Vm.
  pose proof (gtb_false_ordinal _ _ Vs Vm Hgt) as Hle.
  destruct (walk_span m _ _ Vs Vm Hle) as [[_ ->]|(_ & ds & -> & _)]; done.
Qed.


(** On the last day [dt.date] can hold, the loop's final [cursor += 1 day]
    overflows. *)
Lemma build_date_series_last_day :
  build_date_series max 9999 [] = Raises OverflowError.
Proof. by vm_compute. Qed.




End series_facts.










(** C4, counterexample: two runs of either builder on equal inputs, one on
    2025-01-01 and one on 2025-01-02, return different outputs: the builders
    read the current date. *)
Lemma builders_read_the_clock :
  build_date_series (Date 2025 1 1) 2025 []
    = Returns ([Date 2025 1 1], [0])
  /\ build_date_series (Date 2025 1 2) 2025 []
    = Returns ([Date 2025 1 1; Date 2025 1 2], [0; 0])
  /\ build_date_series (Date 2025 1 1) 2025 []
     <> build_date_series (Date 2025 1 2) 2025 []
  /\ build_combined_series (Date 2025 1 1) [2025] ∅
     <> build_combined_series (Date 2025 1 2) [2025] ∅.
Proof. split_and!; [reflexivity|reflexivity|by vm_compute|by vm_compute]. Qed.

(** C4, as amended.  The builders depend on nothing but their inputs and the
    current date, and on the current date only through
    min(today, December 31st of the last year): two runs on equal inputs
    return equal outcomes whenever that minimum is the same, in particular
    whenever both run on or after December 31st of the (last) requested
    year. *)
Theorem builders_pure_up_to_clock today1 today2 year activity years aby :
  (Calendar.min today1 (Date year 12 31) = Calendar.min today2 (Date year 12 31) ->
   build_date_series today1 year activity = build_date_series today2 year activity)
  /\ (Calendar.min today1 (Date (list_max years) 12 31)
      = Calendar.min today2 (Date (list_max years) 12 31) ->
      build_combined_series today1 years aby = build_combined_series today2 years aby)
  /\ (Calendar.leb (Date year 12 31) today1 = true ->
      Calendar.leb (Date year 12 31) today2 = true ->
      build_date_series today1 year activity = build_date_series today2 year activity)
  /\ (Calendar.leb (Date (list_max years) 12 31) today1 = true ->
      Calendar.leb (Date (list_max years) 12 31) today2 = true ->
      build_combined_series today1 years aby = build_combined_series today2 years aby).
Proof.
  assert (Hs : Calendar.min today1 (Date year 12 31)
               = Calendar.min today2 (Date year 12 31) ->
               build_date_series today1 year activity
               = build_date_series today2 year activity).
  { intros Hmin. unfold build_date_series.
    destruct (fill_map activity ∅) as [m| |]; cbn; [|done..].
    destruct (Calendar.new year 1 1) as [s| |]; cbn; [|done..].
    destruct (Calendar.new year 12 31) as [e| |] eqn:He; cbn; [|done..].
    destruct (new_valid _ _ _ _ He) as [_ ->]. by rewrite Hmin. }
  assert (Hc : Calendar.min today1 (Date (list_max years) 12 31)
               = Calendar.min today2 (Date (list_max years) 12 31) ->
               build_combined_series today1 years aby
               = build_combined_series today2 years aby).
  { intros Hmin. unfold build_combined_series.
    destruct (add_years years aby ∅) as [m| |]; cbn -[list_min list_max]; [|done..].
    destruct years as [|y0 years']; [done|].
    destruct (Calendar.new _ 1 1) as [s| |]; cbn -[list_min list_max]; [|done..].
    destruct (Calendar.new _ 12 31) as [e| |] eqn:He; cbn -[list_min list_max]; [|done..].
    destruct (new_valid _ _ _ _ He) as [_ ->]. by rewrite Hmin. }
  split_and!; [done|done| |].
  - intros H1 H2. apply Hs. by rewrite !min_after.
  - intros H1 H2. apply Hc. by rewrite !min_after.
Qed.

Lemma builders_pure_up_to_clock_witness :
  build_date_series (Date 2026 11 3) 2025 [record "2025-03-01" 2]
  = build_date_series (Date 2027 5 9) 2025 [record "2025-03-01" 2]
  /\ build_combined_series (Date 2026 11 3) [2024; 2025] ∅
     = build_combined_series (Date 2027 5 9) [2024; 2025] ∅.
Proof.
  destruct (builders_pure_up_to_clock (Date 2026 11 3) (Date 2027 5 9) 2025
              [record "2025-03-01" 2] [2024; 2025] ∅) as (Ha & Hb & Hc & Hd).
  split.
  - apply Hc; reflexivity.
  - apply Hb. reflexivity.
Defined.




(** * Further properties *)

(** ** Strings *)

Section string_facts.

Lemma lstrip_by_clean p s : starts_clean p (PyStr.lstrip_by p s).
Proof. induction s as [|c r IH]; cbn; [done|]. destruct (p c) eqn:E; [done|]. cbn. done. Qed.

Lemma lstrip_by_id p s : starts_clean p s -> PyStr.lstrip_by p s = s.
Proof. destruct s as [|c r]; cbn; [done|]. by intros ->. Qed.

Lemma rstrip_by_clean p s : starts_clean p s -> starts_clean p (PyStr.rstrip_by p s).
Proof.
  destruct s as [|c r]; cbn; [done|]. intros H. rewrite H, andb_false_r. done.
Qed.

Lemma rstrip_by_idem p s : PyStr.rstrip_by p (PyStr.rstrip_by p s) = PyStr.rstrip_by p s.
Proof.
  induction s as [|c r IH]; cbn; [done|].
  destruct (PyStr.is_empty (PyStr.rstrip_by p r) && p c) eqn:E; [done|].
  cbn. rewrite IH, E. done.
Qed.

Lemma strip_idem s : PyStr.strip (PyStr.strip s) = PyStr.strip s.
Proof.
  unfold PyStr.strip.
  rewrite (lstrip_by_id _ (PyStr.rstrip_by _ _)).
  - apply rstrip_by_idem.
  - apply rstrip_by_clean, lstrip_by_clean.
Qed.

Lemma rstrip_by_empty p s : PyStr.rstrip_by p s = "" -> forall a, PyStr.rstrip_by p (String a s) = if p a then "" else String a "".
Proof. intros H a. cbn. rewrite H. cbn. done. Qed.

Lemma rstrip_by_app p a b :
  PyStr.rstrip_by p b <> "" ->
  PyStr.rstrip_by p (a +:+ b) = a +:+ PyStr.rstrip_by p b.
Proof.
  intros Hb. induction a as [|c a IH]; [done|].
  change (String c a +:+ b) with (String c (a +:+ b)).
  change (String c a +:+ PyStr.rstrip_by p b)
    with (String c (a +:+ PyStr.rstrip_by p b)).
  cbn. rewrite IH. destruct (a +:+ PyStr.rstrip_by p b) eqn:E; [|done].
  destruct a; [done|discriminate].
Qed.

(** No piece of a split holds the separator. *)
Lemma split_pieces sep s x :
  x ∈ PyStr.split sep s -> ~ In sep (list_ascii_of_string x).
Proof.
  revert x. induction s as [|c r IH]; intros x; cbn.
  - intros ->%list_elem_of_singleton. cbn. tauto.
  - destruct (Ascii.eqb c sep) eqn:E.
    + intros [->|Hx]%elem_of_cons; [cbn; tauto|by apply IH].
    + destruct (PyStr.split sep r) as [|h t] eqn:Hs.
      * intros ->%list_elem_of_singleton. cbn. apply Ascii.eqb_neq in E. tauto.
      * intros [->|Hx]%elem_of_cons.
        -- cbn. apply Ascii.eqb_neq in E. intros [?|?]; [done|].
           by apply (IH h); [left|].
        -- apply IH. by right.
Qed.

Lemma split_whole sep s :
  ~ In sep (list_ascii_of_string s) -> PyStr.split sep s = [s].
Proof.
  induction s as [|c r IH]; cbn; [done|]. intros H.
  destruct (Ascii.eqb c sep) eqn:E.
  - apply Ascii.eqb_eq in E. tauto.
  - rewrite IH by tauto. done.
Qed.

Lemma split_app sep a b :
  PyStr.split sep (a +:+ String sep b) = PyStr.split sep a ++ PyStr.split sep b.
Proof.
  induction a as [|c a IH].
  - change ("" +:+ String sep b) with (String sep b).
    cbn. by rewrite Ascii.eqb_refl.
  - change (String c a +:+ String sep b) with (String c (a +:+ String sep b)).
    cbn. rewrite IH. destruct (Ascii.eqb c sep); [done|].
    destruct (PyStr.split sep a) as [|h t] eqn:E; [|done].
    by destruct (split_nonempty sep a).
Qed.

Lemma strip_empty_iff s : PyStr.is_empty (PyStr.strip s) = false -> PyStr.is_empty s = false.
Proof. by destruct s. Qed.

Lemma in_append c a b :
  In c (list_ascii_of_string (a +:+ b))
  <-> In c (list_ascii_of_string a) \/ In c (list_ascii_of_string b).
Proof.
  induction a as [|x a IH].
  - change ("" +:+ b) with b. cbn. tauto.
  - change (String x a +:+ b) with (String x (a +:+ b)). cbn. rewrite IH. tauto.
Qed.

Lemma startswith_nil s : PyStr.startswith s "" = true.
Proof. by destruct s. Qed.

Lemma startswith_cons a b s p :
  PyStr.startswith (String b s) (String a p) = Ascii.eqb a b && PyStr.startswith s p.
Proof. done. Qed.

Lemma append_cons c a b : String c a +:+ b = String c (a +:+ b).
Proof. done. Qed.

Lemma append_nil b : "" +:+ b = b.
Proof. done. Qed.

Lemma append_assoc a b c : (a +:+ b) +:+ c = a +:+ (b +:+ c).
Proof. induction a as [|x a IH]; [done|]. by rewrite !append_cons, IH. Qed.

Lemma rstrip_by_none p s :
  (forall c, In c (list_ascii_of_string s) -> p c = false) -> PyStr.rstrip_by p s = s.
Proof.
  induction s as [|c r IH]; [done|]. intros H. cbn.
  rewrite IH by (intros x Hx; apply H; by right).
  rewrite (H c) by (by left). by rewrite andb_false_r.
Qed.

Lemma rstrip_by_app_empty p a b :
  PyStr.rstrip_by p b = "" -> PyStr.rstrip_by p (a +:+ b) = PyStr.rstrip_by p a.
Proof.
  intros Hb. induction a as [|c a IH]; [done|].
  rewrite append_cons. cbn. by rewrite IH.
Qed.

End string_facts.

Section username_facts.

Lemma candidate_explicit typed u r :
  PyStr.is_empty (PyStr.strip u) = false -> resolve_candidate typed (Some u) r = u.
Proof.
  intros H. unfold resolve_candidate. cbn.
  rewrite (strip_empty_iff u H). cbn. by rewrite H.
Qed.

Lemma username_is_segment typed username raw_input :
  let text := PyStr.strip (resolve_candidate typed username raw_input) in
  is_url text = true -> resolve_username typed username raw_input ∈ url_parts text.
Proof.
  intros text Hurl.
  destruct (last (url_parts text)) as [seg|] eqn:Hlast.
  2:{ apply last_None in Hlast. by destruct (split_nonempty "/" (PyStr.rstrip_slash text)). }
  destruct (parts_cases (url_parts text)) as [(pre & s & rest & Hp & Hpre)|Hcase].
  - rewrite (username_after_p typed username raw_input pre s rest Hurl Hp Hpre).
    fold text. rewrite Hp. set_solver.
  - rewrite (username_last_segment typed username raw_input seg Hurl); [|tauto|done].
    by apply last_Some_elem_of.
Qed.

End username_facts.

(** X1.  Precedence in [resolve_username]: a [--username] value that is not
    blank decides the result alone; neither the positional input nor the line
    typed at the prompt is read. *)
Theorem explicit_username_wins typed typed' u r r' :
  PyStr.is_empty (PyStr.strip u) = false ->
  resolve_username typed (Some u) r = resolve_username typed' (Some u) r'.
Proof.
  intros H. unfold resolve_username. by rewrite !candidate_explicit.
Qed.

Lemma explicit_username_wins_witness :
  resolve_username "x" (Some " alice ") (Some "bob")
  = resolve_username "" (Some " alice ") None.
Proof. apply explicit_username_wins. reflexivity. Defined.

(** X2.  Blank [--username] values: the empty string falls back to the
    positional input exactly as an absent value does; a value of white space
    only is truthy, so the positional input is ignored and the answer to the
    prompt is used. *)
Theorem blank_username_prompts typed u r :
  (resolve_username typed (Some "") r = resolve_username typed None r)
  /\ (PyStr.is_empty u = false -> PyStr.is_empty (PyStr.strip u) = true ->
      resolve_username typed (Some u) r = resolve_username typed None None).
Proof.
  split; [done|]. intros Hne Hblank. unfold resolve_username, resolve_candidate.
  cbn. rewrite Hne. cbn. by rewrite Hblank.
Qed.

Lemma blank_username_prompts_witness :
  resolve_username "carol" (Some "  ") (Some "bob") = "carol".
Proof.
  destruct (blank_username_prompts "carol" "  " (Some "bob")) as [_ H].
  rewrite H; reflexivity.
Defined.

(** X3.  The line typed at the prompt is resolved like a [--username] value:
    trimmed, and a profile URL reduced to its user segment; a blank answer
    gives the empty username. *)
Theorem typed_answer_is_resolved_like_username typed :
  resolve_username typed None None = resolve_username "" (Some typed) None
  /\ (PyStr.is_empty (PyStr.strip typed) = true ->
      resolve_username typed None None = "").
Proof.
  assert (Hl : PyStr.strip (resolve_candidate typed None None) = PyStr.strip typed).
  { unfold resolve_candidate. cbn. apply strip_idem. }
  assert (Hr : PyStr.strip (resolve_candidate "" (Some typed) None) = PyStr.strip typed).
  { unfold resolve_candidate. cbn.
    destruct typed as [|c t]; [done|]. cbn [PyStr.is_empty negb].
    destruct (PyStr.is_empty (PyStr.strip (String c t))) eqn:E; [|done].
    destruct (PyStr.strip (String c t)); [done|discriminate]. }
  unfold resolve_username. rewrite Hl, Hr. split; [done|].
  intros E. destruct (PyStr.strip typed); [done|discriminate].
Qed.

Lemma typed_answer_is_resolved_like_username_witness :
  resolve_username " https://tryhackme.com/p/dave " None None = "dave"
  /\ resolve_username "   " None None = "".
Proof.
  split.
  - destruct (typed_answer_is_resolved_like_username " https://tryhackme.com/p/dave ")
      as [-> _]. reflexivity.
  - apply (typed_answer_is_resolved_like_username "   "). reflexivity.
Defined.

(** X4.  Shape of the result of [resolve_username]: for a URL it is one of
    the segments of the URL and holds no [/]; otherwise it is the trimmed
    text, with no white space at either end. *)
Theorem username_shape typed username raw_input :
  let text := PyStr.strip (resolve_candidate typed username raw_input) in
  let result := resolve_username typed username raw_input in
  (is_url text = true ->
     result ∈ url_parts text /\ ~ In "/"%char (list_ascii_of_string result))
  /\ (is_url text = false -> PyStr.strip result = result).
Proof.
  intros text result. split.
  - intros Hurl. pose proof (username_is_segment typed username raw_input Hurl) as Hin.
    split; [done|]. by eapply split_pieces.
  - intros Hurl. unfold result. rewrite username_plain by done. apply strip_idem.
Qed.

Lemma username_shape_witness :
  ~ In "/"%char (list_ascii_of_string
                  (resolve_username "" (Some "https://tryhackme.com/r/room/") None))
  /\ PyStr.strip (resolve_username "" (Some " a/b ") None)
     = resolve_username "" (Some " a/b ") None.
Proof.
  split.
  - apply (username_shape "" (Some "https://tryhackme.com/r/room/") None). reflexivity.
  - apply (username_shape "" (Some " a/b ") None). reflexivity.
Defined.

(** X5.  Round trip of profile URLs: for the scheme http or https, a host
    without [/] other than [p], and a non-empty name without [/] and without
    trailing white space, [resolve_username] maps [scheme://host/p/name], with
    or without a final [/], to [name]. *)
Theorem profile_url_round_trip typed r scheme host name :
  scheme = "http" \/ scheme = "https" ->
  ~ In "/"%char (list_ascii_of_string host) -> host <> "p" ->
  name <> "" -> ~ In "/"%char (list_ascii_of_string name) ->
  PyStr.rstrip_by PyStr.isspace name = name ->
  resolve_username typed (Some (scheme +:+ "://" +:+ host +:+ "/p/" +:+ name)) r = name
  /\ resolve_username typed
       (Some (scheme +:+ "://" +:+ host +:+ "/p/" +:+ name +:+ "/")) r = name.
Proof.
  intros Hscheme Hhost Hp Hname Hslash Htrim.
  remember (scheme +:+ "://" +:+ host +:+ "/p/" +:+ name) as u eqn:Hdef.
  assert (Hu : u = (scheme +:+ "://" +:+ host +:+ "/p/") +:+ name).
  { rewrite Hdef. by rewrite !append_assoc. }
  assert (Hnoslash : PyStr.rstrip_slash name = name).
  { apply rstrip_by_none. intros c Hc. apply Ascii.eqb_neq. by intros ->. }
  assert (Hstrip : PyStr.strip u = u).
  { unfold PyStr.strip. rewrite lstrip_by_id.
    - rewrite Hu. rewrite rstrip_by_app; rewrite Htrim; done.
    - rewrite Hdef. by destruct Hscheme as [-> | ->]. }
  assert (Hne : PyStr.is_empty u = false) by (rewrite Hdef; by destruct Hscheme as [-> | ->]).
  assert (Hurl : is_url u = true).
  { rewrite Hdef. destruct Hscheme as [-> | ->]; rewrite !append_cons, !append_nil;
      unfold is_url; rewrite !startswith_cons, !startswith_nil; reflexivity. }
  assert (Hparts : PyStr.split "/" u = [scheme +:+ ":"; ""; host; "p"; name]).
  { rewrite Hdef. destruct Hscheme as [-> | ->];
      rewrite !append_cons, !append_nil; cbn;
      rewrite split_app, (split_whole _ host) by done; cbn;
      rewrite (split_whole _ name) by done; done. }
  assert (Hpre : "p" ∉ [scheme +:+ ":"; ""; host]).
  { rewrite !not_elem_of_cons. destruct Hscheme as [-> | ->];
      split_and!; try done; apply not_elem_of_nil. }
  assert (Hcand : forall v, PyStr.strip v = v -> PyStr.is_empty v = false ->
                            PyStr.strip (resolve_candidate typed (Some v) r) = v).
  { intros v Hv Hv'. rewrite candidate_explicit; [done|]. by rewrite Hv. }
  split.
  - apply (username_after_p typed (Some u) r [scheme +:+ ":"; ""; host] name []);
      [by rewrite (Hcand u Hstrip Hne)| |done].
    rewrite (Hcand u Hstrip Hne). unfold url_parts, PyStr.rstrip_slash. rewrite Hu, rstrip_by_app.
    + fold (PyStr.rstrip_slash name). rewrite Hnoslash, <- Hu. apply Hparts.
    + fold (PyStr.rstrip_slash name). by rewrite Hnoslash.
  - assert (Hstrip' : PyStr.strip (u +:+ "/") = u +:+ "/").
    { unfold PyStr.strip. rewrite lstrip_by_id.
      - by rewrite rstrip_by_app.
      - rewrite Hdef. by destruct Hscheme as [-> | ->]. }
    assert (Hne' : PyStr.is_empty (u +:+ "/") = false)
      by (rewrite Hdef; by destruct Hscheme as [-> | ->]).
    assert (Hurl' : is_url (u +:+ "/") = true).
    { rewrite Hdef, !append_assoc.
      destruct Hscheme as [-> | ->]; rewrite !append_cons, !append_nil;
        unfold is_url; rewrite !startswith_cons, !startswith_nil; reflexivity. }
    replace (scheme +:+ "://" +:+ host +:+ "/p/" +:+ name +:+ "/") with (u +:+ "/")
      by (rewrite Hdef; by rewrite !append_assoc).
    apply (username_after_p typed (Some (u +:+ "/")) r [scheme +:+ ":"; ""; host] name []);
      [by rewrite (Hcand _ Hstrip' Hne')| |done].
    rewrite (Hcand _ Hstrip' Hne'). unfold url_parts, PyStr.rstrip_slash. rewrite rstrip_by_app_empty by done.
    rewrite Hu, rstrip_by_app.
    + fold (PyStr.rstrip_slash name). rewrite Hnoslash, <- Hu. apply Hparts.
    + fold (PyStr.rstrip_slash name). by rewrite Hnoslash.
Qed.

Lemma profile_url_round_trip_witness :
  resolve_username "" (Some "https://tryhackme.com/p/al ice") None = "al ice"
  /\ resolve_username "" (Some "http://localhost/p/bob/") None = "bob".
Proof.
  split.
  - apply (profile_url_round_trip "" None "https" "tryhackme.com" "al ice");
      try reflexivity; try (by left); try (by right); try done; compute_done.
  - apply (profile_url_round_trip "" None "http" "localhost" "bob");
      try reflexivity; try (by left); try done; compute_done.
Defined.

(** ** The years *)

Section years_facts.

Lemma int_cases s :
  (exists n, PyStr.int s = Returns n) \/ PyStr.int s = Raises (ValueError InvalidIntLiteral).
Proof. unfold PyStr.int. repeat case_match; eauto. Qed.

Lemma parse_items_returns items :
  Forall (fun item => PyStr.is_empty (PyStr.strip item) = true
                      \/ exists n, PyStr.int (PyStr.strip item) = Returns n) items ->
  exists l, parse_items items = Returns l.
Proof.
  induction 1 as [|item items Hi _ [l IH]]; [by exists []|]. cbn.
  destruct (PyStr.is_empty (PyStr.strip item)) eqn:E; [by exists l|].
  destruct Hi as [?|[n Hn]]; [congruence|]. rewrite Hn, IH. cbn. eauto.
Qed.

Lemma parse_items_raises items e :
  parse_items items = Raises e ->
  e = ValueError InvalidIntLiteral /\
  exists item, item ∈ items /\ PyStr.is_empty (PyStr.strip item) = false /\
               PyStr.int (PyStr.strip item) = Raises (ValueError InvalidIntLiteral).
Proof.
  induction items as [|item items IH]; [done|]. cbn.
  destruct (PyStr.is_empty (PyStr.strip item)) eqn:E.
  - intros H. destruct (IH H) as (-> & x & Hx & ?). split; [done|].
    exists x. split; [by right|done].
  - destruct (int_cases (PyStr.strip item)) as [[n Hn]|Hn]; rewrite Hn; cbn.
    + destruct (parse_items items) as [l| |] eqn:Hl; cbn; [done| |done].
      intros [= <-]. destruct (IH eq_refl) as (-> & x & Hx & ?). split; [done|].
      exists x. split; [by right|done].
    + intros [= <-]. split; [done|]. exists item. split; [by left|done].
Qed.

Lemma parse_items_fuel items : parse_items items <> OutOfFuel.
Proof.
  induction items as [|item items IH]; [done|]. cbn.
  destruct (PyStr.is_empty (PyStr.strip item)); [done|].
  destruct (int_cases (PyStr.strip item)) as [[n Hn]|Hn]; rewrite Hn; cbn; [|done].
  by destruct (parse_items items).
Qed.


Lemma listed_years_cases args :
  listed_years args =
  match Args.years args with
  | Some s => if PyStr.is_empty s then Returns [] else parse_items (PyStr.split "," s)
  | None => Returns []
  end.
Proof. done. Qed.

Lemma parse_years_listed today args :
  match listed_years args with
  | Returns _ => exists ys, parse_years today args = Returns ys
  | Raises e => parse_years today args = Raises e
  | OutOfFuel => parse_years today args = OutOfFuel
  end.
Proof.
  rewrite parse_years_spec. destruct (listed_years args); cbn; eauto.
Qed.



Lemma parse_years_raises today args e :
  parse_years today args = Raises e ->
  e = ValueError InvalidIntLiteral /\
  exists s item,
    Args.years args = Some s /\ item ∈ PyStr.split "," s /\
    PyStr.is_empty (PyStr.strip item) = false /\
    PyStr.int (PyStr.strip item) = Raises (ValueError InvalidIntLiteral).
Proof.
  pose proof (parse_years_listed today args) as H.
  rewrite listed_years_cases in H.
  intros He. destruct (Args.years args) as [s|] eqn:Hs.
  - destruct (PyStr.is_empty s).
    { destruct H as [ys Hy]. congruence. }
    destruct (parse_items (PyStr.split "," s)) as [l|e'|] eqn:Hp.
    + destruct H as [ys Hy]. congruence.
    + assert (e' = e) as -> by congruence.
      destruct (parse_items_raises _ _ Hp) as (-> & item & ? & ? & ?).
      split; [done|]. by exists s, item.
    + by destruct (parse_items_fuel (PyStr.split "," s)).
  - destruct H as [ys Hy]. congruence.
Qed.


Lemma parse_years_fuel today args : parse_years today args <> OutOfFuel.
Proof.
  pose proof (parse_years_listed today args) as H.
  rewrite listed_years_cases in H.
  destruct (Args.years args) as [s|].
  - destruct (PyStr.is_empty s); [by destruct H as [ys ->]|].
    destruct (parse_items (PyStr.split "," s)) as [l|e'|] eqn:Hp.
    + by destruct H as [ys ->].
    + by rewrite H.
    + by destruct (parse_items_fuel (PyStr.split "," s)).
  - by destruct H as [ys ->].
Qed.

Lemma sorted_set_nonempty (l : list Z) : l <> [] -> sorted_set l <> [].
Proof.
  destruct l as [|x l]; [done|]. intros _ E.
  assert (Hx : x ∈ sorted_set (x :: l)) by (apply elem_of_sorted_set; by left).
  rewrite E in Hx. by apply elem_of_nil in Hx.
Qed.

Lemma parse_years_sorted today args ys :
  parse_years today args = Returns ys -> StronglySorted Z.lt ys /\ ys <> [].
Proof.
  intros H. destruct (parse_years_members today args ys H) as (listed & _ & ->).
  split; [apply sorted_set_lt|]. apply sorted_set_nonempty.
  by destruct (listed ++ range_years today args).
Qed.

End years_facts.





Section decimal_facts.













End decimal_facts.

Section csv_facts.




End csv_facts.



(** ** Records and spans *)

Section span_facts.
Import Calendar.


Lemma leb_spec a b :
  leb a b = true <->
  year a < year b \/
  (year a = year b /\ (month a < month b \/ (month a = month b /\ day a <= day b))).
Proof.
  unfold leb. rewrite orb_true_iff, andb_true_iff, orb_true_iff, andb_true_iff.
  rewrite !Z.ltb_lt, !Z.eqb_eq, Z.leb_le. tauto.
Qed.


Lemma leb_trans a b c : leb a b = true -> leb b c = true -> leb a c = true.
Proof. rewrite !leb_spec. lia. Qed.
















End span_facts.



Section policy_facts.
Import Calendar.

Lemma days_in_month_le y m : days_in_month y m <= 31.
Proof.
  unfold days_in_month. destruct ((m =? 2) && is_leap y); [lia|].
  destruct m as [|p|p]; try lia.
  do 4 (destruct p as [p|p|]; try lia).
Qed.

Lemma leb_dec31 d : valid d -> leb d (Date (year d) 12 31) = true.
Proof.
  intros (_ & Hm & Hd)%valid_fields. pose proof (days_in_month_le (year d) (month d)).
  apply leb_spec. cbn. lia.
Qed.

Lemma min_this_year today : valid today -> min today (Date (year today) 12 31) = today.
Proof.
  intros V. unfold min, ltb. by rewrite (leb_dec31 today V).
Qed.

Lemma daily_from_bounded start ds d e :
  valid e -> daily_from start ds -> d ∈ ds ->
  Z.of_nat (length ds) = toordinal e - toordinal start + 1 ->
  leb d e = true.
Proof.
  intros Ve Hd Hin Hlen. apply list_elem_of_lookup in Hin as [i Hi].
  pose proof (lookup_lt_Some _ _ _ Hi). destruct (Hd i d Hi) as [Vd Od].
  apply leb_ordinal; [done..|lia].
Qed.

Lemma leb_min_l a b : valid a -> valid b -> leb (min a b) a = true.
Proof.
  intros Va Vb. apply leb_ordinal; [by apply min_valid|done|].
  rewrite min_ordinal by done. lia.
Qed.












End policy_facts.

(** X10.  Truncation at today: no date of a returned series is after today;
    the series of [build_date_series] ends at the earlier of today and
    December 31st, so the series of the current year ends today, and so does
    a combined series whose last year is the current year. *)
Theorem series_stops_today today :
  Calendar.valid today ->
  (forall y activity dates counts,
      build_date_series today y activity = Returns (dates, counts) ->
      last dates = Some (Calendar.min today (Date y 12 31)) /\
      Forall (fun d => Calendar.leb d today = true) dates /\
      (y = year today -> last dates = Some today))
  /\ (forall years aby dates counts,
      build_combined_series today years aby = Returns (dates, counts) ->
      Forall (fun d => Calendar.leb d today = true) dates /\
      (list_max years = year today -> last dates = Some today)).
Proof.
  intros Vt. split.
  - intros y activity ds cs Hb.
    destruct (build_date_series_returned _ _ _ _ _ Vt Hb) as (Hy & _ & Hlen & Hle & Hd).
    assert (Vs : Calendar.valid (Date y 1 1))
      by by destruct (new_valid _ _ _ _ (new_jan1 y Hy)).
    assert (Ve : Calendar.valid (Date y 12 31))
      by by destruct (new_valid _ _ _ _ (new_dec31 y Hy)).
    pose proof (min_valid _ _ Vt Ve) as Vm.
    assert (Hlast : last ds = Some (Calendar.min today (Date y 12 31))).
    { apply (daily_from_last (Date y 1 1)); try done; lia. }
    split_and!; [done| |].
    + apply Forall_forall. intros d Hin.
      apply (leb_trans _ (Calendar.min today (Date y 12 31))); [|by apply leb_min_l].
      by apply (daily_from_bounded (Date y 1 1) ds).
    + intros ->. by rewrite Hlast, min_this_year.
  - intros years aby ds cs Hb.
    destruct (build_combined_series_returned _ _ _ _ _ Vt Hb)
      as (Hne & Vs & Vm & _ & Hlen & Hle & Hd).
    assert (Ve : Calendar.valid (Date (list_max years) 12 31)).
    { destruct years as [|y0 l]; [done|].
      unfold build_combined_series in Hb.
      destruct (add_years _ _ _); cbn -[list_min list_max] in Hb; [|done..].
      destruct (Calendar.new _ 1 1); cbn -[list_min list_max] in Hb; [|done..].
      destruct (Calendar.new _ 12 31) as [e| |] eqn:He; [|done..].
      by destruct (new_valid _ _ _ _ He) as [? ->]. }
    split.
    + apply Forall_forall. intros d Hin.
      apply (leb_trans _ (Calendar.min today (Date (list_max years) 12 31)));
        [|by apply leb_min_l].
      by apply (daily_from_bounded (Date (list_min years) 1 1) ds).
    + intros Hmax. rewrite <- (min_this_year today Vt), <- Hmax.
      apply (daily_from_last (Date (list_min years) 1 1)); try done; lia.
Qed.

Lemma series_stops_today_witness :
  exists dates counts,
    build_date_series (Date 2026 1 3) 2026 [] = Returns (dates, counts)
    /\ last dates = Some (Date 2026 1 3).
Proof.
  exists [Date 2026 1 1; Date 2026 1 2; Date 2026 1 3], [0; 0; 0].
  split; [reflexivity|].
  destruct (series_stops_today (Date 2026 1 3) eq_refl) as [H _].
  destruct (H 2026 [] _ _ eq_refl) as (_ & _ & Hlast). by apply Hlast.
Defined.





(** ** The fetchers *)

Section fetch_facts.

Lemma raise_for_status_ok r :
  ~ (400 <= status_code r < 600) -> raise_for_status r = Fetched tt.
Proof.
  intros H. unfold raise_for_status.
  destruct (400 <=? status_code r) eqn:E1; [|done].
  destruct (status_code r <? 600) eqn:E2; [|done].
  apply Z.leb_le in E1. apply Z.ltb_lt in E2. lia.
Qed.

Lemma raise_for_status_error r :
  400 <= status_code r < 600 ->
  raise_for_status r = Failed (RequestException (HTTPError (status_code r))).
Proof.
  intros [H1 H2]. unfold raise_for_status.
  apply Z.leb_le in H1. apply Z.ltb_lt in H2. by rewrite H1, H2.
Qed.

Lemma raise_for_status_cases r :
  (400 <= status_code r < 600 /\
   raise_for_status r = Failed (RequestException (HTTPError (status_code r))))
  \/ (~ (400 <= status_code r < 600) /\ raise_for_status r = Fetched tt).
Proof.
  destruct (decide (400 <= status_code r < 600)) as [H|H].
  - left. split; [done|]. by apply raise_for_status_error.
  - right. split; [done|]. by apply raise_for_status_ok.
Qed.

End fetch_facts.

(** X13.  Status codes in [fetch_yearly_activity]: the answer is [None]
    exactly for a 404, whatever the body; every other 4xx or 5xx status is the
    [HTTPError] of [raise_for_status]; the function's own [ValueError] is
    raised only for a status outside 400..599. *)
Theorem fetch_yearly_activity_status net user_id y r :
  get_yearly net user_id y = Response r ->
  (fetch_yearly_activity net user_id y = Fetched None <-> status_code r = 404)
  /\ (400 <= status_code r < 600 -> status_code r <> 404 ->
      fetch_yearly_activity net user_id y
      = Failed (RequestException (HTTPError (status_code r))))
  /\ (forall e, fetch_yearly_activity net user_id y = Failed (FetchValueError e) ->
               ~ (400 <= status_code r < 600)).
Proof.
  intros Hr. unfold fetch_yearly_activity. rewrite Hr.
  destruct (status_code r =? 404) eqn:E.
  - apply Z.eqb_eq in E. split_and!; [done|congruence|done].
  - apply Z.eqb_neq in E.
    destruct (raise_for_status_cases r) as [[Hs ->]|[Hs ->]]; cbn.
    + split_and!; [done|done|done].
    + split_and!; [|lia|done].
      split; [|done]. intros H.
      destruct (json r) as [p|]; cbn in H; [|done].
      destruct (jget p "data" _) as [d|]; cbn in H; [|done].
      destruct (jget d "yearlyActivity" _) as [a|]; cbn in H; [|done].
      by destruct a.
Qed.

Lemma fetch_yearly_activity_status_witness :
  let net := {| get_profile := fun _ => Unreachable;
                get_yearly := fun _ y =>
                  Response {| status_code := (if y =? 2020 then 404 else 503);
                              body := Some (JRecords []) |} |} in
  fetch_yearly_activity net (JScalar (PyStr "id")) 2020 = Fetched None
  /\ fetch_yearly_activity net (JScalar (PyStr "id")) 2021
     = Failed (RequestException (HTTPError 503)).
Proof.
  intros net. split.
  - apply (fetch_yearly_activity_status net (JScalar (PyStr "id")) 2020
             {| status_code := 404; body := Some (JRecords []) |} eq_refl).
    reflexivity.
  - apply (fetch_yearly_activity_status net (JScalar (PyStr "id")) 2021
             {| status_code := 503; body := Some (JRecords []) |} eq_refl);
      cbn; lia.
Defined.

(** X14.  What [fetch_yearly_activity] returns: a list [l] of records exactly
    when the status is outside 400..599, the body is an object, and either its
    [data] field (or the [yearlyActivity] field of that object) is missing and
    [l] is empty, or [data.yearlyActivity] is the array [l]. *)
Theorem fetch_yearly_activity_records net user_id y l :
  fetch_yearly_activity net user_id y = Fetched (Some l) <->
  exists r fields,
    get_yearly net user_id y = Response r /\
    ~ (400 <= status_code r < 600) /\
    body r = Some (JObject fields) /\
    ((field "data" fields = None /\ l = [])
     \/ exists inner,
          field "data" fields = Some (JObject inner) /\
          ((field "yearlyActivity" inner = None /\ l = [])
           \/ field "yearlyActivity" inner = Some (JRecords l))).
Proof.
  unfold fetch_yearly_activity. split.
  - destruct (get_yearly net user_id y) as [|r]; [done|].
    destruct (status_code r =? 404) eqn:E; [done|].
    destruct (raise_for_status_cases r) as [[Hs ->]|[Hs ->]]; cbn; [done|].
    unfold json. destruct (body r) as [[v|recs|fields]|] eqn:Hb; cbn; try done.
    intros H. exists r, fields. split_and!; try done.
    destruct (field "data" fields) as [[v|recs|inner]|] eqn:Hd; cbn in H; try done.
    + right. exists inner. split; [done|].
      destruct (field "yearlyActivity" inner) as [[v|recs|o]|] eqn:Ha; cbn in H;
        try done; injection H as <-; auto.
    + left. split; [done|]. by injection H as <-.
  - intros (r & fields & -> & Hs & Hb & Hcase).
    assert (E : (status_code r =? 404) = false) by (apply Z.eqb_neq; lia).
    rewrite E, (raise_for_status_ok r Hs). cbn. unfold json. rewrite Hb. cbn.
    destruct Hcase as [[Hd ->]|(inner & Hd & [[Ha ->]|Ha])]; rewrite Hd; cbn;
      [done|by rewrite Ha|by rewrite Ha].
Qed.

Lemma fetch_yearly_activity_records_witness :
  let net := {| get_profile := fun _ => Unreachable;
                get_yearly := fun _ _ =>
                  Response {| status_code := 200;
                              body := Some (JObject [("status", JScalar (PyStr "ok"))]) |} |} in
  fetch_yearly_activity net (JScalar (PyStr "id")) 2024 = Fetched (Some []).
Proof.
  intros net. apply fetch_yearly_activity_records.
  eexists _, _. split; [reflexivity|]. split; [cbn; lia|].
  split; [reflexivity|]. left. split; reflexivity.
Defined.

(** X15.  [fetch_user_id] returns an id exactly when the status is outside
    400..599 and the body is an object whose [data] field is an object with a
    truthy [_id], which is the id; a 404 is an [HTTPError], and a body without
    [data] is the [ValueError] "User ID not found in response." *)
Theorem fetch_user_id_found net username user_id :
  (fetch_user_id net username = Fetched user_id <->
   exists r fields inner,
     get_profile net username = Response r /\
     ~ (400 <= status_code r < 600) /\
     body r = Some (JObject fields) /\
     field "data" fields = Some (JObject inner) /\
     field "_id" inner = Some user_id /\ jtruthy user_id = true)
  /\ (forall r, get_profile net username = Response r -> status_code r = 404 ->
                fetch_user_id net username = Failed (RequestException (HTTPError 404)))
  /\ (forall r fields,
        get_profile net username = Response r -> ~ (400 <= status_code r < 600) ->
        body r = Some (JObject fields) -> field "data" fields = None ->
        fetch_user_id net username = Failed (FetchValueError UserIdNotFound)).
Proof.
  unfold fetch_user_id. split_and!.
  - split.
    + destruct (get_profile net username) as [|r]; [done|].
      destruct (raise_for_status_cases r) as [[Hs ->]|[Hs ->]]; cbn; [done|].
      unfold json. destruct (body r) as [[v|recs|fields]|] eqn:Hb; cbn; try done.
      destruct (field "data" fields) as [[v|recs|inner]|] eqn:Hd; cbn; try done.
      destruct (field "_id" inner) as [v|] eqn:Hi; cbn; [|done].
      destruct (jtruthy v) eqn:Ht; [|done]. intros [= <-].
      by exists r, fields, inner.
    + intros (r & fields & inner & -> & Hs & Hb & Hd & Hi & Ht).
      rewrite (raise_for_status_ok r Hs). cbn. unfold json. rewrite Hb. cbn.
      rewrite Hd. cbn. rewrite Hi. cbn. by rewrite Ht.
  - intros r -> H404. rewrite raise_for_status_error by lia. by rewrite H404.
  - intros r fields -> Hs Hb Hd.
    rewrite (raise_for_status_ok r Hs). cbn. unfold json. rewrite Hb. cbn.
    by rewrite Hd.
Qed.

Lemma fetch_user_id_found_witness :
  let answer v := Response {| status_code := 200; body := Some v |} in
  let net := {| get_profile := fun u =>
                  if String.eqb u "alice"
                  then answer (JObject [("data", JObject [("_id", JScalar (PyStr "64"))])])
                  else answer (JObject []);
                get_yearly := fun _ _ => Unreachable |} in
  fetch_user_id net "alice" = Fetched (JScalar (PyStr "64"))
  /\ fetch_user_id net "bob" = Failed (FetchValueError UserIdNotFound).
Proof.
  intros answer net. split.
  - apply (fetch_user_id_found net "alice" (JScalar (PyStr "64"))).
    eexists _, _, _. split; [reflexivity|]. split; [cbn; lia|].
    split_and!; reflexivity.
  - destruct (fetch_user_id_found net "bob" (JScalar PyNone)) as (_ & _ & H).
    apply (H {| status_code := 200; body := Some (JObject []) |} []);
      [reflexivity|cbn; lia|reflexivity|reflexivity].
Defined.

(** X16.  For a status outside 400..599, a payload that is not an object, at
    the top or under [data], makes both fetchers fail with an
    [AttributeError], which is neither a [RequestException] nor a
    [ValueError]. *)
Theorem fetchers_need_objects net username user_id y r v :
  (forall fields, v <> JObject fields) ->
  ~ (400 <= status_code r < 600) ->
  (body r = Some v \/
   exists fields, body r = Some (JObject fields) /\ field "data" fields = Some v) ->
  (get_profile net username = Response r ->
   fetch_user_id net username = Failed AttributeError)
  /\ (get_yearly net user_id y = Response r ->
      fetch_yearly_activity net user_id y = Failed AttributeError).
Proof.
  intros Hv Hs Hb.
  assert (E : (status_code r =? 404) = false) by (apply Z.eqb_neq; lia).
  assert (Hget : forall k d, jget v k d = Failed AttributeError).
  { intros k d. destruct v as [x|l|fields]; [done|done|by destruct (Hv fields)]. }
  split; intros Hr.
  - unfold fetch_user_id. rewrite Hr, (raise_for_status_ok r Hs). cbn. unfold json.
    destruct Hb as [-> | (fields & -> & Hd)]; cbn.
    + by rewrite Hget.
    + rewrite Hd. cbn. by rewrite Hget.
  - unfold fetch_yearly_activity. rewrite Hr, E, (raise_for_status_ok r Hs). cbn.
    unfold json. destruct Hb as [-> | (fields & -> & Hd)]; cbn.
    + by rewrite Hget.
    + rewrite Hd. cbn. by rewrite Hget.
Qed.

Lemma fetchers_need_objects_witness :
  let r := {| status_code := 200;
              body := Some (JObject [("data", JScalar PyNone)]) |} in
  let net := {| get_profile := fun _ => Response r;
                get_yearly := fun _ _ => Response r |} in
  fetch_user_id net "alice" = Failed AttributeError
  /\ fetch_yearly_activity net (JScalar (PyStr "64")) 2024 = Failed AttributeError.
Proof.
  intros r net.
  destruct (fetchers_need_objects net "alice" (JScalar (PyStr "64")) 2024 r
              (JScalar PyNone)) as [H1 H2].
  - done.
  - cbn. lia.
  - right. exists [("data", JScalar PyNone)]. split; reflexivity.
  - split; [by apply H1|by apply H2].
Defined.

(** ** The program *)

Section run_facts.

Context (net : network) (user_id : jvalue).

Lemma filter_bool_cons {A} (p : A -> bool) x l :
  filter p (x :: l) = if p x then x :: filter p l else filter p l.
Proof. rewrite filter_cons. destruct (p x); by destruct (decide _). Qed.

Lemma fetch_years_shape years m events result :
  fetch_years net user_id years m = (events, result) ->
  Forall (fun e => (exists y, e = YearlyRequest user_id y)
                   \/ (exists y, e = Print (FetchingYear y))
                   \/ (exists y, e = Print (NoDataForYear y))
                   \/ (exists n, e = Print (FetchedRecords n))) events.
Proof.
  revert m events result. induction years as [|y years IH]; intros m events result.
  - intros [= <- <-]. constructor.
  - cbn. destruct (fetch_yearly_activity net user_id y) as [[l|]|e].
    + destruct (fetch_years net user_id years _) as [ev res] eqn:E.
      intros [= <- <-]. repeat (constructor; [eauto 6|]). by eapply IH.
    + destruct (fetch_years net user_id years _) as [ev res] eqn:E.
      intros [= <- <-]. repeat (constructor; [eauto 6|]). by eapply IH.
    + intros [= <- <-]. repeat (constructor; [eauto 6|]). constructor.
Qed.

Lemma fetch_years_requests years m events result :
  fetch_years net user_id years m = (events, result) ->
  exists asked,
    asked `prefix_of` years /\
    filter is_request events = YearlyRequest user_id <$> asked /\
    match result with
    | Fetched _ => asked = years
    | Failed e =>
        exists y, last asked = Some y /\
                  fetch_yearly_activity net user_id y = Failed e
    end.
Proof.
  revert m events result. induction years as [|y years IH]; intros m events result.
  - intros [= <- <-]. by exists [].
  - cbn. destruct (fetch_yearly_activity net user_id y) as [[l|]|e] eqn:F.
    + destruct (fetch_years net user_id years _) as [ev res] eqn:E.
      intros [= <- <-]. destruct (IH _ _ _ E) as (asked & Hp & Hf & Hr).
      exists (y :: asked). split; [by apply prefix_cons|].
      split; [cbn [app]; rewrite !filter_bool_cons; cbn; by rewrite Hf|].
      destruct res as [m'|e].
      * by rewrite Hr.
      * destruct Hr as (y' & Hl & Hy'). exists y'. split; [|done].
        destruct asked; [done|]. done.
    + destruct (fetch_years net user_id years _) as [ev res] eqn:E.
      intros [= <- <-]. destruct (IH _ _ _ E) as (asked & Hp & Hf & Hr).
      exists (y :: asked). split; [by apply prefix_cons|].
      split; [cbn [app]; rewrite !filter_bool_cons; cbn; by rewrite Hf|].
      destruct res as [m'|e].
      * by rewrite Hr.
      * destruct Hr as (y' & Hl & Hy'). exists y'. split; [|done].
        destruct asked; [done|]. done.
    + intros [= <- <-]. exists [y]. split; [by apply prefix_cons, prefix_nil|].
      split; [done|]. by exists y.
Qed.

Lemma fetch_years_dict years m events m' :
  fetch_years net user_id years m = (events, Fetched m') ->
  forall y,
    m' !! y = if decide (y ∈ years)
              then match fetch_yearly_activity net user_id y with
                   | Fetched (Some l) => Some l
                   | _ => m !! y
                   end
              else m !! y.
Proof.
  revert m events. induction years as [|y0 years IH]; intros m events.
  - intros [= _ <-] y. rewrite decide_False; [done|apply not_elem_of_nil].
  - cbn. destruct (fetch_yearly_activity net user_id y0) as [[l|]|e] eqn:F.
    + destruct (fetch_years net user_id years _) as [ev res] eqn:E.
      intros [= _ ->] y. rewrite (IH _ _ E y).
      destruct (decide (y = y0)) as [->|Hne].
      * rewrite (decide_True (P := y0 ∈ y0 :: years)) by (by left). rewrite F.
        rewrite lookup_insert_eq. by destruct (decide (y0 ∈ years)).
      * rewrite lookup_insert_ne by done.
        destruct (decide (y ∈ years)) as [Hin|Hin].
        -- by rewrite decide_True by (by right).
        -- rewrite decide_False; [done|]. by intros [?|?]%elem_of_cons.
    + destruct (fetch_years net user_id years _) as [ev res] eqn:E.
      intros [= _ ->] y. rewrite (IH _ _ E y).
      destruct (decide (y = y0)) as [->|Hne].
      * rewrite (decide_True (P := y0 ∈ y0 :: years)) by (by left). rewrite F.
        by destruct (decide (y0 ∈ years)).
      * destruct (decide (y ∈ years)) as [Hin|Hin].
        -- by rewrite decide_True by (by right).
        -- rewrite decide_False; [done|]. by intros [?|?]%elem_of_cons.
    + done.
Qed.

Lemma has_data_spec y :
  has_data net user_id y <-> exists l, fetch_yearly_activity net user_id y = Fetched (Some l).
Proof.
  unfold has_data. destruct (fetch_yearly_activity net user_id y) as [[l|]|e]; cbn.
  - split; [eauto|done].
  - split; [done|]. by intros [l ?].
  - split; [done|]. by intros [l ?].
Qed.

Lemma fetched_lookup years events m' y :
  fetch_years net user_id years ∅ = (events, Fetched m') ->
  m' !! y = if decide (y ∈ years)
            then match fetch_yearly_activity net user_id y with
                 | Fetched (Some l) => Some l
                 | _ => None
                 end
            else None.
Proof.
  intros H. rewrite (fetch_years_dict _ _ _ _ H y), lookup_empty.
  destruct (decide _) as [Hin|Hin]; [|done]. by destruct (fetch_yearly_activity _ _ _) as [[l|]|err].
Qed.

Lemma fetched_dom years events m' y :
  fetch_years net user_id years ∅ = (events, Fetched m') ->
  y ∈ dom m' <-> y ∈ filter (has_data net user_id) years.
Proof.
  intros H. rewrite elem_of_dom, (fetched_lookup _ _ _ _ H), list_elem_of_filter.
  rewrite has_data_spec. destruct (decide (y ∈ years)) as [Hin|Hin].
  - destruct (fetch_yearly_activity net user_id y) as [[l|]|e].
    + split; [eauto|]. intros _. by exists l.
    + split; [by intros [? ?]|]. by intros [[? ?] _].
    + split; [by intros [? ?]|]. by intros [[? ?] _].
  - split; [by intros [? ?]|]. by intros [_ ?].
Qed.

Lemma StronglySorted_lt_le l : StronglySorted Z.lt l -> StronglySorted Z.le l.
Proof.
  induction 1 as [|x l _ IH Hx]; constructor; [done|].
  eapply Forall_impl; [exact Hx|]. cbn. lia.
Qed.

Lemma StronglySorted_lt_NoDup l : StronglySorted Z.lt l -> NoDup l.
Proof.
  induction 1 as [|x l _ IH Hx]; constructor; [|done].
  intros Hin. rewrite Forall_forall in Hx. specialize (Hx x Hin). lia.
Qed.

Lemma StronglySorted_filter_lt (P : Z -> Prop) `{!forall x, Decision (P x)} l :
  StronglySorted Z.lt l -> StronglySorted Z.lt (filter P l).
Proof.
  induction 1 as [|x l _ IH Hx]; [constructor|].
  rewrite filter_cons. destruct (decide (P x)); [|done].
  constructor; [done|]. apply Forall_forall. intros y [_ Hy]%list_elem_of_filter.
  rewrite Forall_forall in Hx. by apply Hx.
Qed.

Lemma sorted_keys_fetched years events m' :
  StronglySorted Z.lt years ->
  fetch_years net user_id years ∅ = (events, Fetched m') ->
  sorted_keys m' = filter (has_data net user_id) years.
Proof.
  intros Hs H. unfold sorted_keys.
  apply (StronglySorted_unique Z.le).
  - apply (StronglySorted_merge_sort Z.le).
  - by apply StronglySorted_lt_le, StronglySorted_filter_lt.
  - rewrite merge_sort_Permutation. apply NoDup_Permutation.
    + apply NoDup_elements.
    + by apply StronglySorted_lt_NoDup, StronglySorted_filter_lt.
    + intros y. rewrite elem_of_elements. by apply fetched_dom with events.
Qed.

Lemma fetched_empty years events m' :
  fetch_years net user_id years ∅ = (events, Fetched m') ->
  m' = ∅ <-> filter (has_data net user_id) years = [].
Proof.
  intros H. split.
  - intros ->. destruct (filter _ years) as [|y l] eqn:E; [done|].
    assert (Hy : y ∈ dom (∅ : gmap Z (list entry))).
    { apply (fetched_dom _ _ _ _ H). rewrite E. by left. }
    by rewrite dom_empty in Hy.
  - intros E. apply map_empty. intros y. apply not_elem_of_dom.
    rewrite (fetched_dom _ _ _ _ H), E. apply not_elem_of_nil.
Qed.

Lemma fetch_years_all years m events m' :
  fetch_years net user_id years m = (events, Fetched m') ->
  Forall (fun y => exists o, fetch_yearly_activity net user_id y = Fetched o) years.
Proof.
  revert m events. induction years as [|y years IH]; intros m events; [constructor|].
  cbn. destruct (fetch_yearly_activity net user_id y) as [[l|]|e] eqn:F; [| |done].
  - destruct (fetch_years net user_id years _) as [ev res] eqn:E.
    intros [= _ ->]. constructor; [eauto|]. by eapply IH.
  - destruct (fetch_years net user_id years _) as [ev res] eqn:E.
    intros [= _ ->]. constructor; [eauto|]. by eapply IH.
Qed.

End run_facts.

Section main_facts.

Context (typed : string) (today : date) (net : network) (args : Args.Namespace).

Lemma main_cases :
  let username := resolve_username typed (Args.username args) (Args.input args) in
  let asked := if prompts (Args.username args) (Args.input args)
               then [Prompt] else [] in
  let lookup := [Print (FetchingUserId username); ProfileRequest username] in
  (parse_years today args = Raises (ValueError InvalidIntLiteral) /\
   main typed today net args = (asked ++ [Print YearValuesMustBeNumbers], Exit 1))
  \/ exists years,
      parse_years today args = Returns years /\
      StronglySorted Z.lt years /\ years <> [] /\
      ((exists e,
          fetch_user_id net username = Failed e /\
          main typed today net args
          = (asked ++ lookup ++ (handle e).1, (handle e).2))
       \/ exists user_id events,
           fetch_user_id net username = Fetched user_id /\
           let found := [Print (UserIdFound user_id)] in
           ((exists e,
               fetch_years net user_id years ∅ = (events, Failed e) /\
               main typed today net args
               = (asked ++ lookup ++ found ++ events ++ (handle e).1, (handle e).2))
            \/ exists m,
                fetch_years net user_id years ∅ = (events, Fetched m) /\
                let shown := filter (has_data net user_id) years in
                let before := asked ++ lookup ++ found ++ events in
                ((shown = [] /\
                  main typed today net args
                  = (before ++ [Print NoDataForAnyYear], Exit 0))
                 \/ (shown <> [] /\
                     main typed today net args
                     = match build_combined_series today shown m with
                       | Returns (dates, counts) =>
                           (before ++ [Plot username (label_of shown) dates counts],
                            Exit 0)
                       | Raises (ValueError why) =>
                           (before ++ [Print (ErrorFromSeries why)], Exit 1)
                       | Raises _ => (before, Uncaught)
                       | OutOfFuel => (before, Unfinished)
                       end)))).
Proof.
  intros username asked lookup. unfold main. fold username. fold asked. fold lookup.
  destruct (parse_years today args) as [years|e|] eqn:Hy.
  - right. exists years. destruct (parse_years_sorted _ _ _ Hy) as [Hs Hne].
    split_and!; [done..|].
    destruct (fetch_user_id net username) as [user_id|e] eqn:Hu.
    + right.
      destruct (fetch_years net user_id years ∅) as [events [m|e]] eqn:Hf.
      * exists user_id, events. split; [done|]. right. exists m. split; [done|].
        cbn zeta. rewrite (sorted_keys_fetched _ _ _ _ _ Hs Hf).
        destruct (decide (m = ∅)) as [He|He].
        -- left. split; [|done]. by apply (fetched_empty _ _ _ _ _ Hf).
        -- right. split; [|done]. intros E. apply He.
           by apply (fetched_empty _ _ _ _ _ Hf).
      * exists user_id, events. split; [done|]. left. exists e. split; [done|].
        by destruct (handle e).
    + left. exists e. split; [done|]. by destruct (handle e).
  - left. destruct (parse_years_raises _ _ _ Hy) as [-> _]. done.
  - by destruct (parse_years_fuel today args).
Qed.

End main_facts.

Section ending_facts.

Import Calendar.

Lemma build_combined_series_agree today years aby aby' :
  (forall y, y ∈ years -> aby !! y = aby' !! y) ->
  build_combined_series today years aby = build_combined_series today years aby'.
Proof.
  intros H. unfold build_combined_series. rewrite !add_years_flat.
  replace (all_records years aby') with (all_records years aby); [done|].
  unfold all_records. f_equal. apply Forall_fmap_ext, Forall_forall.
  intros y Hy. by rewrite (H y Hy).
Qed.



Lemma fetch_years_plots net user_id years m events result :
  fetch_years net user_id years m = (events, result) ->
  filter is_plot events = [] /\
  forall msg, Print msg ∈ events -> is_error msg = false.
Proof.
  intros H%fetch_years_shape. induction H as [|e events He _ [IH1 IH2]].
  - split; [done|]. by intros msg ?%elem_of_nil.
  - rewrite filter_bool_cons. split.
    + by destruct He as [[y ->]|[[y ->]|[[y ->]|[n ->]]]].
    + intros msg [Heq|Hin]%elem_of_cons; [subst e|by apply IH2].
      by destruct He as [[y [=]]|[[y [= ->]]|[[y [= ->]]|[n [= ->]]]]].
Qed.

Lemma requests_of_start (flag : bool) u rest :
  filter is_request ((if flag then [Prompt] else [])
                     ++ [Print (FetchingUserId u); ProfileRequest u] ++ rest)
  = ProfileRequest u :: filter is_request rest.
Proof. destruct flag; cbn [app]; by rewrite !filter_bool_cons. Qed.

Lemma plots_of_start (flag : bool) u rest :
  filter is_plot ((if flag then [Prompt] else [])
                  ++ [Print (FetchingUserId u); ProfileRequest u] ++ rest)
  = filter is_plot rest.
Proof. destruct flag; cbn [app]; by rewrite !filter_bool_cons. Qed.

Lemma requests_of_handle e : filter is_request (handle e).1 = [].
Proof. destruct e; cbn; by rewrite ?filter_bool_cons. Qed.

Lemma plots_of_handle e : filter is_plot (handle e).1 = [].
Proof. destruct e; cbn; by rewrite ?filter_bool_cons. Qed.

Lemma handle_ending e : (handle e).2 <> Exit 0 /\ (handle e).2 <> Unfinished.
Proof. by destruct e. Qed.


End ending_facts.



(** X18.  The requests of a run whose years parse: first the profile lookup
    of the resolved username; if it fails nothing else is asked and the run
    does not exit with 0; otherwise one yearly lookup per year, for the id
    found, in strictly ascending order of the years, up to the end of the list
    or to the first lookup that fails. *)
Theorem main_request_order typed today net args years :
  let username := resolve_username typed (Args.username args) (Args.input args) in
  let run := main typed today net args in
  parse_years today args = Returns years ->
  StronglySorted Z.lt years /\
  match fetch_user_id net username with
  | Failed _ =>
      filter is_request run.1 = [ProfileRequest username] /\ run.2 <> Exit 0
  | Fetched user_id =>
      exists queried,
        queried `prefix_of` years /\
        filter is_request run.1
        = ProfileRequest username :: (YearlyRequest user_id <$> queried) /\
        (queried = years \/
         run.2 <> Exit 0 /\
         exists y e, last queried = Some y /\
                     fetch_yearly_activity net user_id y = Failed e)
  end.
Proof.
  intros username run Hy. unfold run.
  destruct (main_cases typed today net args)
    as [[Hp _]|(years' & Hp & Hs & _ & Hrun)]; [congruence|].
  assert (years' = years) as -> by congruence. split; [done|]. fold username in Hrun.
  destruct Hrun as [(e & -> & ->)|(uid & events & -> & Hrun)]; cbn [fst snd].
  - rewrite requests_of_start, requests_of_handle. split; [done|apply handle_ending].
  - destruct Hrun as [(e & Hf & ->)|(m & Hf & Hrun)]; cbn [fst snd];
      destruct (fetch_years_requests _ _ _ _ _ _ Hf) as (queried & Hpre & Hq & Hres).
    + exists queried. split; [done|]. split.
      * rewrite requests_of_start. cbn [app]. rewrite filter_bool_cons. cbn.
        by rewrite filter_app, requests_of_handle, app_nil_r, Hq.
      * right. split; [apply handle_ending|]. destruct Hres as (y & ? & ?). by exists y, e.
    + subst queried. exists years. split; [done|]. split; [|by left].
      assert (Hgen : forall tail (how : ending),
                filter is_request tail = [] ->
                filter is_request
                  (((if prompts (Args.username args) (Args.input args)
                     then [Prompt] else [])
                    ++ [Print (FetchingUserId username); ProfileRequest username]
                    ++ [Print (UserIdFound uid)] ++ events) ++ tail, how).1
                = ProfileRequest username :: (YearlyRequest uid <$> years)).
      { intros tail how Ht. cbn [fst]. rewrite <- !app_assoc, requests_of_start.
        cbn [app]. rewrite filter_bool_cons. cbn. by rewrite filter_app, Ht, app_nil_r, Hq. }
      destruct Hrun as [[_ ->]|[_ ->]].
      * apply Hgen. by rewrite filter_bool_cons.
      * destruct (build_combined_series _ _ _) as [[ds cs]|[]|].
        -- apply Hgen. by rewrite filter_bool_cons.
        -- apply Hgen. by rewrite filter_bool_cons.
        -- rewrite <- (app_nil_r (_ ++ _ ++ _ ++ events)). by apply Hgen.
        -- rewrite <- (app_nil_r (_ ++ _ ++ _ ++ events)). by apply Hgen.
        -- rewrite <- (app_nil_r (_ ++ _ ++ _ ++ events)). by apply Hgen.
Qed.

Lemma main_request_order_witness :
  let net := {| get_profile := fun _ => ok (profile_of "abc");
                get_yearly := fun _ y =>
                  if y =? 2025 then Response {| status_code := 500; body := None |}
                  else ok (activity_of []) |} in
  let run := main "bob" (Date 2026 1 3) net
               (args_of None (Some "2026,2024,2025") None None) in
  exists queried,
    queried `prefix_of` [2024; 2025; 2026] /\
    filter is_request run.1
    = ProfileRequest "bob" :: (YearlyRequest (JScalar (PyStr "abc")) <$> queried) /\
    (queried = [2024; 2025; 2026] \/
     run.2 <> Exit 0 /\
     exists y e, last queried = Some y /\
                 fetch_yearly_activity net (JScalar (PyStr "abc")) y = Failed e).
Proof.
  intros net run.
  exact (proj2 (main_request_order "bob" (Date 2026 1 3) net
                  (args_of None (Some "2026,2024,2025") None None)
                  [2024; 2025; 2026] eq_refl)).
Defined.

(** X19.  The chart of a run: either the run does not exit with 0 and plots
    nothing, or every yearly lookup answered and the exit code is 0; then, if
    no year has data, nothing is plotted and the last line printed is "No
    yearly activity data found for any requested year.", and otherwise the
    last event is the only chart, labelled with the years that have data and
    showing the combined series of exactly those years' records. *)
Theorem main_chart typed today net args :
  let username := resolve_username typed (Args.username args) (Args.input args) in
  let run := main typed today net args in
  (run.2 <> Exit 0 /\ filter is_plot run.1 = [])
  \/ exists years user_id,
       parse_years today args = Returns years /\
       fetch_user_id net username = Fetched user_id /\
       Forall (fun y => exists o, fetch_yearly_activity net user_id y = Fetched o)
              years /\
       run.2 = Exit 0 /\
       let shown := filter (has_data net user_id) years in
       ((shown = [] /\ filter is_plot run.1 = [] /\
         last run.1 = Some (Print NoDataForAnyYear))
        \/ exists dates counts,
             shown <> [] /\
             (forall aby,
                (forall y l, y ∈ shown ->
                             fetch_yearly_activity net user_id y = Fetched (Some l) ->
                             aby !! y = Some l) ->
                build_combined_series today shown aby = Returns (dates, counts)) /\
             filter is_plot run.1 = [Plot username (label_of shown) dates counts] /\
             last run.1 = Some (Plot username (label_of shown) dates counts)).
Proof.
  intros username run. unfold run.
  destruct (main_cases typed today net args)
    as [[Hp ->]|(years & Hp & Hs & _ & Hrun)]; cbn [fst snd].
  { left. split; [done|]. destruct (prompts _ _); cbn [app]; by rewrite ?filter_bool_cons. }
  fold username in Hrun.
  destruct Hrun as [(e & Hu & ->)|(uid & events & Hu & Hrun)]; cbn [fst snd].
  { left. split; [apply handle_ending|]. by rewrite plots_of_start, plots_of_handle. }
  destruct Hrun as [(e & Hf & ->)|(m & Hf & Hrun)]; cbn [fst snd];
    destruct (fetch_years_plots _ _ _ _ _ _ Hf) as [Hplots _].
  { left. split; [apply handle_ending|]. rewrite plots_of_start. cbn [app].
    by rewrite filter_bool_cons, filter_app, Hplots, plots_of_handle. }
  assert (Hgen : forall tail,
            filter is_plot
              (((if prompts (Args.username args) (Args.input args)
                 then [Prompt] else [])
                ++ [Print (FetchingUserId username); ProfileRequest username]
                ++ [Print (UserIdFound uid)] ++ events) ++ tail)
            = filter is_plot tail).
  { intros tail. rewrite <- !app_assoc, plots_of_start. cbn [app].
    by rewrite filter_bool_cons, filter_app, Hplots. }
  cbn zeta in Hrun. destruct Hrun as [[Hsh ->]|[Hsh ->]]; cbn [fst snd].
  - right. exists years, uid. split_and!; [done|done|by eapply fetch_years_all|done|].
    left. split_and!; [done| |by rewrite last_snoc]. rewrite Hgen. by rewrite filter_bool_cons.
  - destruct (build_combined_series today _ m) as [[ds cs]|[]|] eqn:Hb; cbn [fst snd].
    + right. exists years, uid. split_and!; [done|done|by eapply fetch_years_all|done|].
      right. exists ds, cs. split_and!; [done| | |by rewrite last_snoc].
      * intros aby Haby. rewrite <- Hb. apply build_combined_series_agree.
        intros y Hin. rewrite (fetched_lookup _ _ _ _ _ y Hf).
        pose proof Hin as [[l Hl]%has_data_spec Hy]%list_elem_of_filter.
        rewrite decide_True by done. rewrite Hl. by apply Haby.
      * rewrite Hgen. by rewrite filter_bool_cons.
    + left. split; [done|]. rewrite Hgen. by rewrite filter_bool_cons.
    + left. split; [done|]. by rewrite <- (app_nil_r (_ ++ _ ++ _ ++ events)), Hgen.
    + left. split; [done|]. by rewrite <- (app_nil_r (_ ++ _ ++ _ ++ events)), Hgen.
    + left. split; [done|]. by rewrite <- (app_nil_r (_ ++ _ ++ _ ++ events)), Hgen.
Qed.

Lemma main_chart_witness :
  let net := {| get_profile := fun _ => ok (profile_of "abc");
                get_yearly := fun _ y =>
                  if y =? 2025 then not_found
                  else ok (activity_of [record "2024-12-31" 4]) |} in
  let run := main "bob" (Date 2026 1 3) net
               (args_of None (Some "2026,2024,2025") None None) in
  exists dates counts,
    filter is_plot run.1 = [Plot "bob" "2024-2026" dates counts] /\
    last run.1 = Some (Plot "bob" "2024-2026" dates counts).
Proof.
  intros net run.
  destruct (main_chart "bob" (Date 2026 1 3) net
              (args_of None (Some "2026,2024,2025") None None))
    as [[H _]|(years & uid & Hp & Hu & _ & _ & [(H & _)|(ds & cs & _ & _ & Hpl & Hl)])].
  - exfalso. apply H. reflexivity.
  - vm_compute in Hp. injection Hp as <-. vm_compute in Hu. injection Hu as <-.
    vm_compute in H. discriminate H.
  - vm_compute in Hp. injection Hp as <-. vm_compute in Hu. injection Hu as <-.
    exists ds, cs. split; [exact Hpl|exact Hl].
Defined.





(** ** The prompt and the single year *)

(** X22.  [prompt_if_missing]: the answer carries no white space at either
    end; it depends on the typed line only when the value is [None] or a blank
    string, and is then the trimmed line; and the candidate of
    [resolve_username] is, when the prompt is shown, the answer of
    [prompt_if_missing(None, ...)]. *)
Theorem prompt_if_missing_answer typed value :
  let answer := prompt_if_missing typed value in
  PyStr.strip answer = answer
  /\ (forall typed',
        prompt_if_missing typed' value <> answer ->
        answer = PyStr.strip typed /\
        (value = PyNone \/ exists s, value = PyStr s /\ PyStr.strip s = ""))
  /\ (forall username raw_input,
        PyStr.strip (resolve_candidate typed username raw_input)
        = if prompts username raw_input then prompt_if_missing typed PyNone
          else PyStr.strip
                 (PyObj.str (opt_str (if PyObj.truthy (opt_str username)
                                      then username else raw_input)))).
Proof.
  intros answer. unfold answer. split_and!.
  - unfold prompt_if_missing. destruct value as [|b|n|s]; try apply strip_idem.
    destruct (PyStr.is_empty (PyStr.strip s)); apply strip_idem.
  - intros typed' H. unfold prompt_if_missing in *.
    destruct value as [|b|n|s]; try done.
    + split; [done|by left].
    + destruct (PyStr.is_empty (PyStr.strip s)) eqn:E; [|done].
      split; [done|]. right. exists s. split; [done|].
      by destruct (PyStr.strip s).
  - intros username raw_input. unfold resolve_candidate, prompts.
    destruct (if PyObj.truthy (opt_str username) then username else raw_input)
      as [c|]; cbn [prompt_if_missing opt_str PyObj.str].
    + destruct (PyStr.is_empty (PyStr.strip c)); [apply strip_idem|done].
    + apply strip_idem.
Qed.

Lemma prompt_if_missing_answer_witness :
  prompt_if_missing " carol " (PyStr "  ") = "carol"
  /\ PyStr.strip (resolve_candidate " carol " (Some "") None) = "carol".
Proof.
  split.
  - destruct (prompt_if_missing_answer " carol " (PyStr "  ")) as (_ & H & _).
    destruct (H "dave") as [E _]; [by vm_compute|exact E].
  - destruct (prompt_if_missing_answer " carol " PyNone) as (_ & _ & H).
    rewrite (H (Some "") None). reflexivity.
Defined.


